(** * quickpin: the scraping worker (lib/worker/scrape.py)

    A shallow embedding of the worker functions [scrape_account],
    [_scrape_twitter_account], [scrape_twitter_avatar] and [_login_twitter].
    The worker talks to four collaborators: the HTTP client, the relational
    store behind a unit-of-work session, the Redis key-value/pub-sub server
    and the job queues.  Their state is gathered in one [World] record that is
    threaded through a state-and-exception monad; what the outside world
    answers (HTTP responses, markup selection, pickling) is an [Env]. *)

From stdpp Require Import base strings list gmap pretty relations.
From Stdlib Require Import ZArith Lia Ascii String.

Open Scope Z_scope.
Open Scope string_scope.

(** ** Python values that cross the worker's boundary *)

(** A Python scalar as it appears in a JSON payload or as a job argument. *)
Inductive Value :=
| VNone
| VInt (z : Z)
| VStr (s : string).

(** The exceptions that the worker's code paths can raise.  All of them are
    subclasses of Python's [Exception]. *)
Inductive Exn :=
| HTTPError (code : Value) (msg : Value)   (* urllib.error.HTTPError *)
| TypeError (msg : string)
| ValueError (msg : string)
| IndexError
| KeyError (key : string)
| NameError (name : string)
| ClickException (msg : string)            (* click.ClickException *)
| IntegrityError                           (* sqlalchemy.exc *)
| NoResultFound
| MultipleResultsFound
| RequestException (msg : string).         (* requests.exceptions *)

(** A dict with string keys, as the list of its items in insertion order;
    this is what [json.dumps] is given and what goes over the wire. *)
Definition Dict := list (string * Value).

(** [d[k] = v]: an existing key keeps its position. *)
Fixpoint dict_set (k : string) (v : Value) (d : Dict) : Dict :=
  match d with
  | [] => [(k, v)]
  | (k', v') :: d' =>
      if String.eqb k k' then (k, v) :: d' else (k', v') :: dict_set k v d'
  end.

Definition dict_keys (d : Dict) : list string := map fst d.

Definition dict_get (k : string) (d : Dict) : option Value :=
  snd <$> List.find (fun kv => String.eqb k (fst kv)) d.

Definition bytes := list Byte.byte.

(** ** Data model *)

(** Modelled from the spec: the [model] module (classes [Profile] and [File])
    is not part of the worker's file.  A profile's identity is
    (site, original id), persisted as a uniqueness constraint; the surrogate
    key [p_id] is absent until the row has been flushed; description and
    counts are empty until assigned. *)
Record Profile := mkProfile {
  p_id : option Z;
  p_site : string;
  p_original_id : string;
  p_name : string;
  p_description : option string;
  p_post_count : option Z;
  p_friend_count : option Z;
  p_follower_count : option Z
}.

(** [Profile(site, original_id, name)] *)
Definition new_Profile (site original_id name : string) : Profile :=
  mkProfile None site original_id name None None None None.

(** Modelled from the spec: a stored binary asset; [f_owner] is the profile
    whose avatar collection holds it. *)
Record File := mkFile {
  f_id : option Z;
  f_name : string;
  f_mime : string;
  f_content : bytes;
  f_owner : option Z
}.

(** [File(name=..., mime=..., content=...)] *)
Definition new_File (name mime : string) (content : bytes) : File :=
  mkFile None name mime content None.

Definition with_id (i : Z) (p : Profile) : Profile :=
  mkProfile (Some i) (p_site p) (p_original_id p) (p_name p)
    (p_description p) (p_post_count p) (p_friend_count p) (p_follower_count p).

Definition with_description (v : string) (p : Profile) : Profile :=
  mkProfile (p_id p) (p_site p) (p_original_id p) (p_name p)
    (Some v) (p_post_count p) (p_friend_count p) (p_follower_count p).

Definition with_post_count (v : Z) (p : Profile) : Profile :=
  mkProfile (p_id p) (p_site p) (p_original_id p) (p_name p)
    (p_description p) (Some v) (p_friend_count p) (p_follower_count p).

Definition with_friend_count (v : Z) (p : Profile) : Profile :=
  mkProfile (p_id p) (p_site p) (p_original_id p) (p_name p)
    (p_description p) (p_post_count p) (Some v) (p_follower_count p).

Definition with_follower_count (v : Z) (p : Profile) : Profile :=
  mkProfile (p_id p) (p_site p) (p_original_id p) (p_name p)
    (p_description p) (p_post_count p) (p_friend_count p) (Some v).

Definition file_with_id (i : Z) (f : File) : File :=
  mkFile (Some i) (f_name f) (f_mime f) (f_content f) (f_owner f).

Definition file_with_owner (o : option Z) (f : File) : File :=
  mkFile (f_id f) (f_name f) (f_mime f) (f_content f) o.

(** The identity of a profile. *)
Definition same_identity (site original_id : string) (p : Profile) : bool :=
  String.eqb (p_site p) site && String.eqb (p_original_id p) original_id.

(** The [id] attribute of a mapped object as a Python value. *)
Definition py_id (i : option Z) : Value :=
  match i with Some z => VInt z | None => VNone end.

(** ** HTTP and markup *)

Record Response := mkResponse {
  status_code : Z;
  text : string;
  headers : list (string * string);
  raw : bytes
}.

Inductive Request :=
| GET (url : string)
| POST (url : string) (data : list (string * string)).

(** A [requests.Session]: its cookie jar. *)
Record Session := mkSession { cookies : list (string * string) }.

(** An element matched by a CSS selector: its attributes and [get_text()]. *)
Record Element := mkElement {
  attrs : list (string * string);
  get_text : string
}.

(** A job on one of the two queues: the function and its arguments. *)
Inductive Job :=
| Job_scrape_twitter_avatar (id_ : Value) (url : string)
| Job_index_profile (id_ : Value).

(** ** The world the worker acts on *)

Record World := mkWorld {
  (* relational store: committed rows *)
  w_profiles : list Profile;
  w_files : list File;
  (* the unit-of-work session: added but unflushed objects, and modified
     persistent profiles by primary key *)
  w_pending : list Profile;
  w_pending_files : list File;
  w_dirty : gmap Z Profile;
  (* Redis: keys, the SET calls made, and the published messages *)
  w_redis : gmap string bytes;
  w_redis_sets : list (string * bytes);
  w_published : list (string * Dict);
  (* job queues *)
  w_scrape_queue : list Job;
  w_index_queue : list Job;
  (* requests sent so far, oldest first *)
  w_net : list Request
}.

Definition set_profiles v (w : World) : World :=
  mkWorld v (w_files w) (w_pending w) (w_pending_files w) (w_dirty w)
    (w_redis w) (w_redis_sets w) (w_published w) (w_scrape_queue w)
    (w_index_queue w) (w_net w).
Definition set_files v (w : World) : World :=
  mkWorld (w_profiles w) v (w_pending w) (w_pending_files w) (w_dirty w)
    (w_redis w) (w_redis_sets w) (w_published w) (w_scrape_queue w)
    (w_index_queue w) (w_net w).
Definition set_pending v (w : World) : World :=
  mkWorld (w_profiles w) (w_files w) v (w_pending_files w) (w_dirty w)
    (w_redis w) (w_redis_sets w) (w_published w) (w_scrape_queue w)
    (w_index_queue w) (w_net w).
Definition set_pending_files v (w : World) : World :=
  mkWorld (w_profiles w) (w_files w) (w_pending w) v (w_dirty w)
    (w_redis w) (w_redis_sets w) (w_published w) (w_scrape_queue w)
    (w_index_queue w) (w_net w).
Definition set_dirty v (w : World) : World :=
  mkWorld (w_profiles w) (w_files w) (w_pending w) (w_pending_files w) v
    (w_redis w) (w_redis_sets w) (w_published w) (w_scrape_queue w)
    (w_index_queue w) (w_net w).
Definition set_redis v (w : World) : World :=
  mkWorld (w_profiles w) (w_files w) (w_pending w) (w_pending_files w)
    (w_dirty w) v (w_redis_sets w) (w_published w) (w_scrape_queue w)
    (w_index_queue w) (w_net w).
Definition set_redis_sets v (w : World) : World :=
  mkWorld (w_profiles w) (w_files w) (w_pending w) (w_pending_files w)
    (w_dirty w) (w_redis w) v (w_published w) (w_scrape_queue w)
    (w_index_queue w) (w_net w).
Definition set_published v (w : World) : World :=
  mkWorld (w_profiles w) (w_files w) (w_pending w) (w_pending_files w)
    (w_dirty w) (w_redis w) (w_redis_sets w) v (w_scrape_queue w)
    (w_index_queue w) (w_net w).
Definition set_scrape_queue v (w : World) : World :=
  mkWorld (w_profiles w) (w_files w) (w_pending w) (w_pending_files w)
    (w_dirty w) (w_redis w) (w_redis_sets w) (w_published w) v
    (w_index_queue w) (w_net w).
Definition set_index_queue v (w : World) : World :=
  mkWorld (w_profiles w) (w_files w) (w_pending w) (w_pending_files w)
    (w_dirty w) (w_redis w) (w_redis_sets w) (w_published w)
    (w_scrape_queue w) v (w_net w).
Definition set_net v (w : World) : World :=
  mkWorld (w_profiles w) (w_files w) (w_pending w) (w_pending_files w)
    (w_dirty w) (w_redis w) (w_redis_sets w) (w_published w)
    (w_scrape_queue w) (w_index_queue w) v.

(** ** State and exceptions *)

Inductive Outcome (A : Type) :=
| Return (a : A)
| Raise (e : Exn).
Arguments Return {A} a.
Arguments Raise {A} e.

Definition M (A : Type) : Type := World -> Outcome A * World.

Definition ret {A} (a : A) : M A := fun w => (Return a, w).
Definition raise {A} (e : Exn) : M A := fun w => (Raise e, w).
Definition bind {A B} (c : M A) (k : A -> M B) : M B :=
  fun w => match c w with
           | (Return a, w') => k a w'
           | (Raise e, w') => (Raise e, w')
           end.
(** [try: body / except ... : handler]; a handler that matches no clause
    re-raises. *)
Definition try_except {A} (body : M A) (handler : Exn -> M A) : M A :=
  fun w => match body w with
           | (Return a, w') => (Return a, w')
           | (Raise e, w') => handler e w'
           end.
Definition get_world : M World := fun w => (Return w, w).
Definition modify (f : World -> World) : M unit := fun w => (Return tt, f w).

Declare Scope py_scope.
Delimit Scope py_scope with py.
Notation "x <- c ;; k" := (bind c (fun x => k))
  (at level 100, c at next level, right associativity) : py_scope.
Notation "c ;;; k" := (bind c (fun _ => k))
  (at level 100, right associativity) : py_scope.
Open Scope py_scope.

(** [l[0]] *)
Definition index0 {A} (l : list A) : M A :=
  match l with
  | x :: _ => ret x
  | [] => raise IndexError
  end.

(** ** String operations of the Python code *)

Definition chars (s : string) : list ascii := list_ascii_of_string s.
Definition of_chars (l : list ascii) : string := string_of_list_ascii l.

(** [s.replace(',', '')] *)
Definition remove_commas (s : string) : string :=
  of_chars (List.filter (fun c => negb (Ascii.eqb c ",")) (chars s)).

(** [s.split('/')[-1]]: what follows the last slash (all of [s] when it has
    none). *)
Fixpoint last_segment_aux (acc : list ascii) (l : list ascii) : list ascii :=
  match l with
  | [] => rev acc
  | c :: l' =>
      if Ascii.eqb c "/" then last_segment_aux [] l'
      else last_segment_aux (c :: acc) l'
  end.
Definition last_segment (s : string) : string :=
  of_chars (last_segment_aux [] (chars s)).

Definition lower_char (c : ascii) : ascii :=
  let n := nat_of_ascii c in
  if ((65 <=? n) && (n <=? 90))%nat then ascii_of_nat (n + 32) else c.
Definition lower (s : string) : string := of_chars (map lower_char (chars s)).

(** [int(s)] on a string: surrounding white space is dropped, an optional
    sign is read, then decimal digits, where single underscores may separate
    digits.  Anything else is a [ValueError]. *)
Definition is_space (c : ascii) : bool :=
  let n := nat_of_ascii c in
  ((n =? 32) || ((9 <=? n) && (n <=? 13)) || ((28 <=? n) && (n <=? 31)))%nat.

Definition digit_of (c : ascii) : option Z :=
  let n := nat_of_ascii c in
  if ((48 <=? n) && (n <=? 57))%nat then Some (Z.of_nat n - 48) else None.

Fixpoint drop_spaces (l : list ascii) : list ascii :=
  match l with
  | c :: l' => if is_space c then drop_spaces l' else l
  | [] => []
  end.

Definition strip (l : list ascii) : list ascii :=
  rev (drop_spaces (rev (drop_spaces l))).

(** [digits acc prev l]: [prev] tells whether the previous character was a
    digit, so that an underscore is accepted only between two digits. *)
Fixpoint digits (acc : Z) (prev : bool) (l : list ascii) : option Z :=
  match l with
  | [] => if prev then Some acc else None
  | c :: l' =>
      match digit_of c with
      | Some d => digits (10 * acc + d) true l'
      | None =>
          if Ascii.eqb c "_" && prev then
            match l' with
            | c' :: _ =>
                match digit_of c' with
                | Some _ => digits acc false l'
                | None => None
                end
            | [] => None
            end
          else None
      end
  end.

Definition parse_int (s : string) : option Z :=
  match strip (chars s) with
  | [] => None
  | c :: l =>
      if Ascii.eqb c "-" then Z.opp <$> digits 0 false l
      else if Ascii.eqb c "+" then digits 0 false l
      else digits 0 false (c :: l)
  end.

Definition int (s : string) : M Z :=
  match parse_int s with
  | Some z => ret z
  | None =>
      raise (ValueError ("invalid literal for int() with base 10: " +:+ s))
  end.

(** [d[k]] on string-keyed attributes or headers. *)
Fixpoint assoc (k : string) (l : list (string * string)) : option string :=
  match l with
  | [] => None
  | (k', v) :: l' => if String.eqb k k' then Some v else assoc k l'
  end.

(** [el[k]] on a markup element. *)
Definition getitem (el : Element) (k : string) : M string :=
  match assoc k (attrs el) with
  | Some v => ret v
  | None => raise (KeyError k)
  end.

(** Response headers compare their keys without regard to case. *)
Fixpoint header (k : string) (l : list (string * string)) : option string :=
  match l with
  | [] => None
  | (k', v) :: l' =>
      if String.eqb (lower k) (lower k') then Some v else header k l'
  end.

Definition header_getitem (r : Response) (k : string) : M string :=
  match header k (headers r) with
  | Some v => ret v
  | None => raise (KeyError (lower k))
  end.

(** ** The relational store behind the session *)

(** Surrogate keys come from a sequence; rows are never deleted, so the next
    key is one above the largest in use. *)
Definition max_id (ids : list (option Z)) : Z :=
  fold_right (fun i m => Z.max (default 0 i) m) 0 ids.
Definition fresh_profile_id (rows : list Profile) : Z :=
  1 + max_id (map p_id rows).
Definition fresh_file_id (rows : list File) : Z :=
  1 + max_id (map f_id rows).

(** INSERT of the pending profiles, in the order they were added.  The
    uniqueness constraint on (site, original id) refuses a row whose identity
    is taken; the flush then fails as a whole.  The result is the new table
    and the flushed objects, which now carry their primary keys. *)
Fixpoint flush_profiles (pending rows : list Profile)
  : option (list Profile * list Profile) :=
  match pending with
  | [] => Some (rows, [])
  | p :: ps =>
      if existsb (same_identity (p_site p) (p_original_id p)) rows then None
      else
        let p' := with_id (fresh_profile_id rows) p in
        match flush_profiles ps (rows ++ [p']) with
        | Some (rows', flushed) => Some (rows', p' :: flushed)
        | None => None
        end
  end.

Fixpoint flush_files (pending rows : list File) : list File * list File :=
  match pending with
  | [] => (rows, [])
  | f :: fs =>
      let f' := file_with_id (fresh_file_id rows) f in
      let '(rows', flushed) := flush_files fs (rows ++ [f']) in
      (rows', f' :: flushed)
  end.

(** UPDATE of the modified persistent profiles, by primary key. *)
Definition apply_dirty (dirty : gmap Z Profile) (rows : list Profile)
  : list Profile :=
  map (fun r => match p_id r with
                | Some i => default r (dirty !! i)
                | None => r
                end) rows.

Record Flushed := mkFlushed {
  fl_profiles : list Profile;
  fl_files : list File
}.

(** [db_session.add(obj)] *)
Definition db_add (p : Profile) : M unit :=
  modify (fun w => set_pending (w_pending w ++ [p]) w).

(** [db_session.commit()]: flushes the session and commits.  On an integrity
    violation nothing is written and the session keeps its state until it is
    rolled back.  The objects flushed by the commit are returned, since the
    Python objects receive their primary keys in place. *)
Definition db_commit : M Flushed := fun w =>
  match flush_profiles (w_pending w) (w_profiles w) with
  | None => (Raise IntegrityError, w)
  | Some (rows, flushed) =>
      let '(files, flushed_files) :=
        flush_files (w_pending_files w) (w_files w) in
      (Return (mkFlushed flushed flushed_files),
       set_dirty ∅ (set_pending_files [] (set_pending []
         (set_files files (set_profiles (apply_dirty (w_dirty w) rows) w)))))
  end.

(** [db_session.rollback()] *)
Definition db_rollback : M unit :=
  modify (fun w => set_dirty ∅ (set_pending_files [] (set_pending [] w))).

(** [db_session.query(Profile).filter(Profile.site==site)
       .filter(Profile.original_id==original_id).one()] *)
Definition db_query_one (site original_id : string) : M Profile := fun w =>
  match List.filter (same_identity site original_id) (w_profiles w) with
  | [p] => (Return p, w)
  | [] => (Raise NoResultFound, w)
  | _ => (Raise MultipleResultsFound, w)
  end.

(** [db_session.query(Profile).filter(Profile.id==id_).first()] *)
Definition db_query_first (id_ : Z) : M (option Profile) := fun w =>
  (Return (List.find (fun p => match p_id p with
                               | Some i => Z.eqb i id_
                               | None => false
                               end) (w_profiles w)), w).

(** An attribute assignment on a persistent profile: the object changes in
    place and the session records it as modified. *)
Definition setattr (f : Profile -> Profile) (p : Profile) : M Profile :=
  let p' := f p in
  modify (fun w => match p_id p' with
                   | Some i => set_dirty (<[i := p']> (w_dirty w)) w
                   | None => w
                   end) ;;;
  ret p'.

(** [profile.avatars.append(file_)]: the file joins the session through the
    relationship. *)
Definition avatars_append (p : Profile) (f : File) : M File :=
  let f' := file_with_owner (p_id p) f in
  modify (fun w => set_pending_files (w_pending_files w ++ [f']) w) ;;;
  ret f'.

(** ** Redis and the queues *)

Definition redis_get (k : string) : M (option bytes) := fun w =>
  (Return (w_redis w !! k), w).

Definition redis_set (k : string) (v : bytes) : M unit :=
  modify (fun w =>
    set_redis_sets (w_redis_sets w ++ [(k, v)])
      (set_redis (<[k := v]> (w_redis w)) w)).

(** [redis.publish(channel, json.dumps(payload))] *)
Definition redis_publish (channel : string) (payload : Dict) : M unit :=
  modify (fun w => set_published (w_published w ++ [(channel, payload)]) w).

(** [app.queue.scrape_queue.enqueue(...)] and
    [app.queue.index_queue.enqueue(...)] *)
Definition scrape_queue_enqueue (j : Job) : M unit :=
  modify (fun w => set_scrape_queue (w_scrape_queue w ++ [j]) w).
Definition index_queue_enqueue (j : Job) : M unit :=
  modify (fun w => set_index_queue (w_index_queue w ++ [j]) w).

(** ** Names and calls *)

(** The names bound at module level in scrape.py: its imports and its four
    functions. *)
Definition module_globals : list string :=
  ["bs4"; "datetime"; "hashlib"; "json"; "pickle"; "HTTPError"; "urllib";
   "requests"; "IntegrityError"; "app"; "File"; "Profile"; "worker";
   "scrape_account"; "_scrape_twitter_account"; "scrape_twitter_avatar";
   "_login_twitter"].

(** Evaluating a global name. *)
Definition load_global (name : string) : M unit :=
  if existsb (String.eqb name) module_globals then ret tt
  else raise (NameError name).

(** A call [HTTPError(k1=v1, ...)] with keyword arguments only.  The
    constructor is [__init__(self, url, code, msg, hdrs, fp)]: a keyword that
    names no parameter, or a parameter left without argument, is a
    [TypeError]. *)
Definition HTTPError_params : list string :=
  ["url"; "code"; "msg"; "hdrs"; "fp"].

Definition call_HTTPError (kwargs : Dict) : M Exn :=
  match List.find
          (fun kv => negb (existsb (String.eqb (fst kv)) HTTPError_params))
          kwargs with
  | Some (k, _) =>
      raise (TypeError
        ("HTTPError.__init__() got an unexpected keyword argument '"
           +:+ k +:+ "'"))
  | None =>
      if forallb (fun prm => existsb (String.eqb prm) (dict_keys kwargs))
           HTTPError_params
      then ret (HTTPError (default VNone (dict_get "code" kwargs))
                          (default VNone (dict_get "msg" kwargs)))
      else raise (TypeError
        "HTTPError.__init__() missing required positional arguments")
  end.

(** ** The outside world *)

Record Env := mkEnv {
  (* the answer to a request, given the requests sent before it and the
     cookie jar it is sent with: a transport failure or a response, and the
     jar afterwards *)
  http : list Request -> Session -> Request -> (string + Response) * Session;
  (* [bs4.BeautifulSoup(text, 'html.parser').select(selector)] *)
  select : string -> string -> list Element;
  (* [pickle.loads]; [None] when it raises *)
  pickle_loads : bytes -> option Session;
  pickle_dumps : Session -> bytes
}.

Definition dquote : string := String "034"%char EmptyString.

Definition value_is (z : Z) (v : Value) : bool :=
  match v with VInt z' => Z.eqb z' z | _ => false end.

(** [str(obj.id)] *)
Definition str_id (i : option Z) : string :=
  match i with Some z => pretty z | None => "None" end.

(** ** The worker functions *)

Section Worker.

Variable env : Env.

(** [session.get(url)] and [session.post(url, data=...)]: the request is
    sent, the session keeps the cookies it is handed, and a transport failure
    is an exception of the HTTP client. *)
Definition session_send (session : Session) (rq : Request)
  : M (Response * Session) := fun w =>
  let '(answer, session') := http env (w_net w) session rq in
  let w' := set_net (w_net w ++ [rq]) w in
  match answer with
  | inl msg => (Raise (RequestException msg), w')
  | inr response => (Return (response, session'), w')
  end.

Definition twitter_url : string := "https://twitter.com".

(** The second part of [_login_twitter], reached when no saved session could
    be used: the login handshake. *)
Definition login_handshake : M Session :=
  let session := mkSession [] in
  let home_url := twitter_url +:+ "/login" in
  answer <- session_send session (GET home_url) ;;
  let '(home_response, session) := answer in
  if negb (Z.eqb (status_code home_response) 200) then
    raise (ValueError ("Not able to fetch Twitter login page ("
                         +:+ pretty (status_code home_response) +:+ ")"))
  else
  let csrf_selector := "input[name=authenticity_token]" in
  let csrf_elements := select env (text home_response) csrf_selector in
  if (List.length csrf_elements =? 0)%nat then
    raise (ValueError ("Expected >=1 elements matching selector " +:+ dquote
                         +:+ csrf_selector +:+ dquote
                         +:+ ", found 0 instead."))
  else
  first_element <- index0 csrf_elements ;;
  csrf_token <- getitem first_element "value" ;;
  let login_url := twitter_url +:+ "/sessions" in
  let payload :=
    [("authenticity_token", csrf_token);
     ("session[username_or_email]", "testomctester");
     ("session[password]", "Rwtvdw56eegntnO");
     ("remember_me", "1");
     ("return_to_ssl", "true")] in
  answer <- session_send session (POST login_url payload) ;;
  let '(login_response, session) := answer in
  (if negb (Z.eqb (status_code login_response) 302) then
     raise (ValueError ("Not able to log in to Twitter "
                          +:+ pretty (status_code login_response)))
   else
     location <- header_getitem login_response "Location" ;;
     if String.prefix home_url location then
       (* raise click.ClickException(...) *)
       load_global "click" ;;;
       raise (ClickException
         ("Not able to log in to Twitter: probably a bad username or password ("
            +:+ pretty (status_code login_response) +:+ ")"))
     else ret tt) ;;;
  let saved_session := pickle_dumps env session in
  redis_set "twitter_session" saved_session ;;;
  ret session.

(** [_login_twitter()]: Log into a Twitter account.  A saved session that
    unpickles is returned at once; when there is none, or unpickling raises,
    control falls through to the handshake. *)
Definition _login_twitter : M Session :=
  saved_session <- redis_get "twitter_session" ;;
  match saved_session with
  | Some blob =>
      match pickle_loads env blob with
      | Some session => ret session
      | None => login_handshake
      end
  | None => login_handshake
  end.

(** Lines 76 to 87 of [_scrape_twitter_account]: the profile is added and
    committed; when the commit is refused the session is rolled back and the
    existing row is read instead. *)
Definition upsert_profile (user_id username : string) : M Profile :=
  let profile := new_Profile "twitter" user_id username in
  db_add profile ;;;
  try_except
    (flushed <- db_commit ;;
     ret (default profile (last (fl_profiles flushed))))
    (fun e =>
       match e with
       | IntegrityError =>
           (* Already exists: use the existing profile. *)
           db_rollback ;;;
           db_query_one "twitter" user_id
       | _ => raise e
       end).

(** [_scrape_twitter_account(username)]: Scrape twitter bio data and create
    (or update) a profile. *)
Definition _scrape_twitter_account (username : string) : M Dict :=
  twitter_session <- _login_twitter ;;
  let home_url := twitter_url +:+ "/" +:+ username in
  answer <- session_send twitter_session (GET home_url) ;;
  let response := fst answer in
  (if negb (Z.eqb (status_code response) 200) then
     let message := "Not able to get home page for " +:+ dquote +:+ username
                      +:+ dquote +:+ " ("
                      +:+ pretty (status_code response) +:+ ")" in
     e <- call_HTTPError [("code", VInt (status_code response));
                          ("message", VStr message)] ;;
     raise e
   else ret tt) ;;;
  let html := select env (text response) in
  (* Get Twitter ID and upsert the profile. *)
  profile_el <- index0 (html ".ProfileNav-item--userActions .user-actions") ;;
  user_id <- getitem profile_el "data-user-id" ;;
  profile <- upsert_profile user_id username ;;
  let data := [("name", VStr username); ("site", VStr "twitter")] in
  bio_el <- index0 (html ".ProfileHeaderCard-bio") ;;
  let data := dict_set "description" (VStr (get_text bio_el)) data in
  profile <- setattr (with_description (get_text bio_el)) profile ;;
  post_count_el <-
    index0 (html ".ProfileNav-item--tweets .ProfileNav-value") ;;
  n <- int (remove_commas (get_text post_count_el)) ;;
  let data := dict_set "post_count" (VInt n) data in
  n <- int (remove_commas (get_text post_count_el)) ;;
  profile <- setattr (with_post_count n) profile ;;
  friend_count_el <-
    index0 (html ".ProfileNav-item--following .ProfileNav-value") ;;
  n <- int (remove_commas (get_text friend_count_el)) ;;
  let data := dict_set "friend_count" (VInt n) data in
  n <- int (remove_commas (get_text friend_count_el)) ;;
  profile <- setattr (with_friend_count n) profile ;;
  follower_count_el <-
    index0 (html ".ProfileNav-item--followers .ProfileNav-value") ;;
  n <- int (remove_commas (get_text follower_count_el)) ;;
  let data := dict_set "follower_count" (VInt n) data in
  n <- int (remove_commas (get_text follower_count_el)) ;;
  profile <- setattr (with_follower_count n) profile ;;
  avatar_el <- index0 (html ".ProfileAvatar-image") ;;
  avatar_url <- getitem avatar_el "src" ;;
  db_commit ;;;
  scrape_queue_enqueue
    (Job_scrape_twitter_avatar (py_id (p_id profile)) avatar_url) ;;;
  index_queue_enqueue (Job_index_profile (py_id (p_id profile))) ;;;
  let data := dict_set "id" (py_id (p_id profile)) data in
  ret data.

(** [scrape_twitter_avatar(id_, url)]: Get a twitter avatar from [url] and
    save it to the Profile identified by [id_].  The result of
    [urllib.parse.urlparse(url)] is not used. *)
Definition scrape_twitter_avatar (id_ : Z) (url : string) : M unit :=
  (* Download image. *)
  answer <- session_send (mkSession []) (GET url) ;;
  let response := fst answer in
  (if negb (Z.eqb (status_code response) 200) then
     raise (ValueError EmptyString)
   else ret tt) ;;;
  found <- db_query_first id_ ;;
  match found with
  | None => raise (ValueError ("No profile exists with id=" +:+ pretty id_))
  | Some profile =>
      let name := last_segment url in
      let mime :=
        match header "content-type" (headers response) with
        | Some m => m
        | None => "application/octet-stream"
        end in
      let content := raw response in
      let file_ := new_File name mime content in
      file_ <- avatars_append profile file_ ;;
      flushed <- db_commit ;;
      let file_ := default file_ (last (fl_files flushed)) in
      redis_publish "avatar"
        [("id", VInt id_); ("url", VStr ("/api/file/" +:+ str_id (f_id file_)))]
  end.

(** The dict [account_scrapers] of [scrape_account]. *)
Definition account_scrapers : gmap string (string -> M Dict) :=
  {[ "twitter" := _scrape_twitter_account ]}.

(** The two [except] clauses of [scrape_account]. *)
Definition scrape_account_except (site name : string) (e : Exn) : M unit :=
  match e with
  | HTTPError code _ =>
      let message :=
        [("name", VStr name); ("site", VStr site); ("error_code", code)] in
      let message :=
        if value_is 404 code then
          dict_set "error" (VStr "Profile not found.") message
        else
          dict_set "error"
            (VStr ("Error while communicating with " +:+ site +:+ "."))
            message in
      redis_publish "profile" message
  | _ =>
      let message :=
        [("name", VStr name); ("site", VStr site);
         ("error", VStr "Unknown error while fetching profile.")] in
      redis_publish "profile" message ;;;
      raise e
  end.

(** [scrape_account(site, name)]: Scrape a twitter account.  The handles
    returned by [worker.get_redis()] and [worker.get_session()] are the Redis
    and session parts of the world. *)
Definition scrape_account (site name : string) : M unit :=
  match account_scrapers !! site with
  | Some scraper =>
      try_except
        (profile <- scraper name ;;
         redis_publish "profile" profile)
        (scrape_account_except site name)
  | None =>
      raise (ValueError ("No scraper exists for site " +:+ dquote +:+ site
                           +:+ dquote))
  end.

End Worker.

(** ** Workers running side by side *)

(** What a scrape reads off a page. *)
Record Scraped := mkScraped {
  s_user_id : string;
  s_description : string;
  s_post_count : Z;
  s_friend_count : Z;
  s_follower_count : Z;
  s_avatar_url : string
}.

(** The fields a scrape assigns, on a profile. *)
Definition with_scraped (s : Scraped) (p : Profile) : Profile :=
  with_follower_count (s_follower_count s)
    (with_friend_count (s_friend_count s)
       (with_post_count (s_post_count s)
          (with_description (s_description s) p))).

(** A scrape reaches the store in up to three transactions.  The upsert of
    [upsert_profile] makes two: the commit of the added profile, and, when
    that commit was refused, the read of the stored row.  [upsert_commit] is
    the first, up to the point where the [except] clause is entered ([None]);
    [upsert_reread] is the body of that clause.  The third is the commit of
    the assigned fields, [commit_fields]. *)
Definition upsert_commit (user_id username : string) : M (option Profile) :=
  let profile := new_Profile "twitter" user_id username in
  db_add profile ;;;
  try_except
    (flushed <- db_commit ;;
     ret (Some (default profile (last (fl_profiles flushed)))))
    (fun e =>
       match e with
       | IntegrityError => ret None
       | _ => raise e
       end).

Definition upsert_reread (user_id : string) : M Profile :=
  db_rollback ;;;
  db_query_one "twitter" user_id.

(** The third transaction of a scrape: the assignments of lines 93 to 105 on
    the resolved profile, with the values read off the page, and the commit
    of line 110. *)
Definition commit_fields (s : Scraped) (profile : Profile) : M Profile :=
  profile <- setattr (with_description (s_description s)) profile ;;
  profile <- setattr (with_post_count (s_post_count s)) profile ;;
  profile <- setattr (with_friend_count (s_friend_count s)) profile ;;
  profile <- setattr (with_follower_count (s_follower_count s)) profile ;;
  db_commit ;;;
  ret profile.

(** Where a worker stands in its scrape. *)
Inductive Stage :=
| Committing
| Rereading
| Resolved (profile : Profile)
| Finished (profile : Profile)
| Crashed (e : Exn).

(** A worker scraping one account.  It has a session of its own
    ([wk_session], whose committed rows are not used) and shares the store. *)
Record Worker := mkWorker {
  wk_username : string;
  wk_scraped : Scraped;
  wk_session : World;
  wk_stage : Stage
}.

Definition wk_user_id (k : Worker) : string := s_user_id (wk_scraped k).

Record System := mkSystem {
  sys_rows : list Profile;
  sys_workers : list Worker
}.

(** One transaction of one worker, on the rows as they are now. *)
Definition worker_step (rows : list Profile) (k : Worker)
  : list Profile * Worker :=
  let w := set_profiles rows (wk_session k) in
  let next stage w' :=
    (w_profiles w', mkWorker (wk_username k) (wk_scraped k) w' stage) in
  match wk_stage k with
  | Committing =>
      match upsert_commit (wk_user_id k) (wk_username k) w with
      | (Return (Some p), w') => next (Resolved p) w'
      | (Return None, w') => next Rereading w'
      | (Raise e, w') => next (Crashed e) w'
      end
  | Rereading =>
      match upsert_reread (wk_user_id k) w with
      | (Return p, w') => next (Resolved p) w'
      | (Raise e, w') => next (Crashed e) w'
      end
  | Resolved p =>
      match commit_fields (wk_scraped k) p w with
      | (Return p', w') => next (Finished p') w'
      | (Raise e, w') => next (Crashed e) w'
      end
  | Finished _ | Crashed _ => (rows, k)
  end.

Definition running (k : Worker) : bool :=
  match wk_stage k with
  | Committing | Rereading | Resolved _ => true
  | Finished _ | Crashed _ => false
  end.



(** A schedule names, step after step, the worker that moves; naming a
    worker that has finished, or none, does nothing. *)
Definition run_worker (s : System) (i : nat) : System :=
  match sys_workers s !! i with
  | Some k =>
      if running k then
        mkSystem (fst (worker_step (sys_rows s) k))
                 (<[i := snd (worker_step (sys_rows s) k)]> (sys_workers s))
      else s
  | None => s
  end.

Definition run_schedule (schedule : list nat) (s : System) : System :=
  fold_left run_worker schedule s.

(** ** A concrete outside world, for running the worker *)

Module Fixture.

Definition empty_world : World :=
  mkWorld [] [] [] [] ∅ ∅ [] [] [] [] [].

(** A profile page of the expected layout. *)
Definition page_select (doc selector : string) : list Element :=
  if String.eqb doc "login page" then
    if String.eqb selector "input[name=authenticity_token]"
    then [mkElement [("name", "authenticity_token"); ("value", "tok")]
            EmptyString]
    else []
  else if String.eqb doc "profile page" then
    if String.eqb selector ".ProfileNav-item--userActions .user-actions"
    then [mkElement [("data-user-id", "4242")] EmptyString]
    else if String.eqb selector ".ProfileHeaderCard-bio"
    then [mkElement [] "Tester of things"]
    else if String.eqb selector ".ProfileNav-item--tweets .ProfileNav-value"
    then [mkElement [] "12,345"]
    else if String.eqb selector
              ".ProfileNav-item--following .ProfileNav-value"
    then [mkElement [] "67"]
    else if String.eqb selector
              ".ProfileNav-item--followers .ProfileNav-value"
    then [mkElement [] "1,000,001"]
    else if String.eqb selector ".ProfileAvatar-image"
    then [mkElement [("src", "https://pbs.twimg.com/img/a.png")] EmptyString]
    else []
  else if String.eqb doc "page without user id" then
    if String.eqb selector ".ProfileNav-item--userActions .user-actions"
    then []
    else [mkElement [("src", "https://pbs.twimg.com/img/a.png")] "7"]
  else if String.eqb doc "page without bio" then
    if String.eqb selector ".ProfileNav-item--userActions .user-actions"
    then [mkElement [("data-user-id", "4242")] EmptyString]
    else if String.eqb selector ".ProfileHeaderCard-bio"
    then []
    else [mkElement [("src", "https://pbs.twimg.com/img/a.png")] "7"]
  else [].

Definition ok (doc : string) : Response := mkResponse 200 doc [] [].

(** [good] tells whether the credentials are accepted. *)
Definition site (good : bool) (sent : list Request) (session : Session)
  (rq : Request) : (string + Response) * Session :=
  match rq with
  | GET url =>
      if String.eqb url "https://twitter.com/login"
      then (inr (ok "login page"), session)
      else if String.eqb url "https://twitter.com/alice"
      then (inr (ok "profile page"), session)
      else if String.eqb url "https://twitter.com/alice2"
      then (inr (ok "profile page"), session)
      else if String.eqb url "https://twitter.com/noid"
      then (inr (ok "page without user id"), session)
      else if String.eqb url "https://twitter.com/nobio"
      then (inr (ok "page without bio"), session)
      else if String.eqb url "https://twitter.com/busy"
      then (inr (mkResponse 503 EmptyString [] []), session)
      else if String.eqb url "https://pbs.twimg.com/img/a.png"
      then (inr (mkResponse 200 EmptyString
                   [("Content-Type", "image/png")] [Byte.x78]), session)
      else if String.eqb url "https://unreachable.example/a.png"
      then (inl "connection refused", session)
      else (inr (mkResponse 404 EmptyString [] []), session)
  | POST url data =>
      if good
      then (inr (mkResponse 302 EmptyString
                   [("location", "https://twitter.com/")] []),
            mkSession [("auth_token", "t")])
      else (inr (mkResponse 302 EmptyString
                   [("location", "https://twitter.com/login/error")] []),
            session)
  end.

Definition loads (b : bytes) : option Session :=
  match b with
  | [Byte.x73] => Some (mkSession [("auth_token", "t")])
  | _ => None
  end.

Definition env (good : bool) : Env :=
  mkEnv (site good) page_select loads (fun _ => [Byte.x73]).

(** A world whose Redis holds a usable saved session. *)
Definition logged_in : World :=
  set_redis {[ "twitter_session" := [Byte.x73] ]} empty_world.

(** The profile that a first scrape of the account left in the store. *)
Definition alice : Profile :=
  mkProfile (Some 1) "twitter" "4242" "alice" (Some "Old bio") (Some 1)
    (Some 2) (Some 3).

Definition with_alice : World := set_profiles [alice] logged_in.

(** Two workers scrape the same account, under two handles, on an empty
    store. *)
Definition race : System :=
  mkSystem []
    [mkWorker "alice"
       (mkScraped "4242" "First bio" 1 2 3 "https://pbs.twimg.com/img/a.png")
       empty_world Committing;
     mkWorker "alice2"
       (mkScraped "4242" "Second bio" 4 5 6 "https://pbs.twimg.com/img/a.png")
       empty_world Committing].

End Fixture.

(** * The vocabulary of the statements *)

(** The names of the selectors and messages the worker uses. *)
Definition login_url : string := "https://twitter.com/login".
Definition sessions_url : string := "https://twitter.com/sessions".
Definition csrf_selector : string := "input[name=authenticity_token]".

Definition login_payload (csrf_token : string) : list (string * string) :=
  [("authenticity_token", csrf_token);
   ("session[username_or_email]", "testomctester");
   ("session[password]", "Rwtvdw56eegntnO");
   ("remember_me", "1");
   ("return_to_ssl", "true")].

Definition unknown_error_message (site name : string) : Dict :=
  [("name", VStr name); ("site", VStr site);
   ("error", VStr "Unknown error while fetching profile.")].


Definition home_url (username : string) : string :=
  twitter_url +:+ "/" +:+ username.

Definition unexpected_keyword_message : string :=
  "HTTPError.__init__() got an unexpected keyword argument 'message'".

Definition clean_session (w : World) : Prop :=
  w_pending w = [] /\ w_pending_files w = [] /\ w_dirty w = ∅.

(** Login touches Redis and the network only. *)
Definition same_store (w w' : World) : Prop :=
  w_profiles w' = w_profiles w /\ w_files w' = w_files w
  /\ w_pending w' = w_pending w /\ w_pending_files w' = w_pending_files w
  /\ w_dirty w' = w_dirty w /\ w_published w' = w_published w
  /\ w_scrape_queue w' = w_scrape_queue w
  /\ w_index_queue w' = w_index_queue w.

Definition id_selector : string :=
  ".ProfileNav-item--userActions .user-actions".
Definition bio_selector : string := ".ProfileHeaderCard-bio".
Definition tweets_selector : string :=
  ".ProfileNav-item--tweets .ProfileNav-value".
Definition following_selector : string :=
  ".ProfileNav-item--following .ProfileNav-value".
Definition followers_selector : string :=
  ".ProfileNav-item--followers .ProfileNav-value".
Definition avatar_selector : string := ".ProfileAvatar-image".


(** The first match of a selector, with the property the scrape needs. *)
Definition first_match (env : Env) (doc selector : string)
  (P : Element -> Prop) : Prop :=
  exists el, head (select env doc selector) = Some el /\ P el.

(** Every selector matches, the attributes are there and the counts parse. *)
Definition page_yields (env : Env) (doc : string) (s : Scraped) : Prop :=
  first_match env doc id_selector
    (fun el => assoc "data-user-id" (attrs el) = Some (s_user_id s))
  /\ first_match env doc bio_selector
       (fun el => get_text el = s_description s)
  /\ first_match env doc tweets_selector
       (fun el => parse_int (remove_commas (get_text el))
                  = Some (s_post_count s))
  /\ first_match env doc following_selector
       (fun el => parse_int (remove_commas (get_text el))
                  = Some (s_friend_count s))
  /\ first_match env doc followers_selector
       (fun el => parse_int (remove_commas (get_text el))
                  = Some (s_follower_count s))
  /\ first_match env doc avatar_selector
       (fun el => assoc "src" (attrs el) = Some (s_avatar_url s)).

Definition success_message (username : string) (s : Scraped) (id_ : Value)
  : Dict :=
  [("name", VStr username); ("site", VStr "twitter");
   ("description", VStr (s_description s));
   ("post_count", VInt (s_post_count s));
   ("friend_count", VInt (s_friend_count s));
   ("follower_count", VInt (s_follower_count s));
   ("id", id_)].


(** [keeps f c]: running [c] does not change the part [f] of the world. *)
Definition keeps {X A} (f : World -> X) (c : M A) : Prop :=
  forall w, f (snd (c w)) = f w.

Definition is_HTTPError (e : Exn) : bool :=
  match e with HTTPError _ _ => true | _ => false end.

(** [no_HTTPError c]: whatever [c] raises, it is not an [HTTPError]. *)
Definition no_HTTPError {A} (c : M A) : Prop :=
  forall w, match fst (c w) with
            | Raise e => is_HTTPError e = false
            | Return _ => True
            end.


Definition publish (payload : Dict) (w : World) : World :=
  set_published (w_published w ++ [("profile", payload)]) w.

(** The committed rows and what the session holds for the next flush. *)
Definition committed (w : World) : list Profile * list Profile * list File :=
  (w_profiles w, w_pending w, w_pending_files w).

(** The uniqueness constraint, as a property of the table. *)
Definition unique_identities (rows : list Profile) : Prop :=
  forall site original_id,
    (List.length (List.filter (same_identity site original_id) rows) <= 1)%nat.






(** Redis holds no saved session that unpickles: the key is absent, or
    [pickle.loads] raises on what it holds. *)
Definition no_saved_session (env : Env) (w : World) : Prop :=
  forall blob,
    w_redis w !! "twitter_session" = Some blob -> pickle_loads env blob = None.

(** The world after [requests] were sent. *)
Definition sent (requests : list Request) (w : World) : World :=
  set_net (w_net w ++ requests) w.

(** A site whose login page carries the token and which answers the
    credentials with [answer]. *)
Definition login_env (answer : Response) : Env :=
  mkEnv
    (fun _ session rq =>
       match rq with
       | GET _ => (inr (Fixture.ok "login page"), session)
       | POST _ _ => (inr answer, session)
       end)
    Fixture.page_select Fixture.loads (fun _ => [Byte.x73]).

Definition login_form_element : Element :=
  mkElement [("name", "authenticity_token"); ("value", "tok")] EmptyString.

(** The two job queues. *)
Definition queues (w : World) : list Job * list Job :=
  (w_scrape_queue w, w_index_queue w).

Definition message_keys : list string :=
  ["name"; "site"; "description"; "post_count"; "friend_count";
   "follower_count"; "id"].

Definition slash : ascii := "/"%char.

(** The avatar event. *)
Definition avatar_message (id_ file_id : Z) : Dict :=
  [("id", VInt id_); ("url", VStr ("/api/file/" +:+ pretty file_id))].

(** The MIME type taken for a download. *)
Definition mime_of (response : Response) : string :=
  match header "content-type" (headers response) with
  | Some m => m
  | None => "application/octet-stream"
  end.





(** * Properties *)

(** ** Running a computation step by step *)

Lemma bind_Return {A B} (c : M A) (k : A -> M B) w a w1 :
  c w = (Return a, w1) -> bind c k w = k a w1.
Proof. intros H. unfold bind. now rewrite H. Qed.

Lemma bind_Raise {A B} (c : M A) (k : A -> M B) w e w1 :
  c w = (Raise e, w1) -> bind c k w = (Raise e, w1).
Proof. intros H. unfold bind. now rewrite H. Qed.

Lemma bind_Return_inv {A B} (c : M A) (k : A -> M B) w b w' :
  bind c k w = (Return b, w') ->
  exists a w1, c w = (Return a, w1) /\ k a w1 = (Return b, w').
Proof.
  unfold bind. destruct (c w) as [[a|e] w1]; intros H.
  - now exists a, w1.
  - discriminate.
Qed.

Lemma index0_head {A} (l : list A) x w :
  head l = Some x -> index0 l w = (Return x, w).
Proof. destruct l; simpl; [discriminate | now intros [= ->]]. Qed.

Lemma index0_cons {A} (x : A) l w : index0 (x :: l) w = (Return x, w).
Proof. reflexivity. Qed.

Lemma index0_nil {A} w : index0 (@nil A) w = (Raise IndexError, w).
Proof. reflexivity. Qed.

Lemma getitem_Some el k v w :
  assoc k (attrs el) = Some v -> getitem el k w = (Return v, w).
Proof. unfold getitem. now intros ->. Qed.

Lemma int_Some s z w : parse_int s = Some z -> int s w = (Return z, w).
Proof. unfold int. now intros ->. Qed.

Lemma session_send_response env session rq w response session' :
  http env (w_net w) session rq = (inr response, session') ->
  session_send env session rq w
  = (Return (response, session'), set_net (w_net w ++ [rq])%list w).
Proof. unfold session_send. now intros ->. Qed.

Lemma session_send_failure env session rq w msg session' :
  http env (w_net w) session rq = (inl msg, session') ->
  session_send env session rq w
  = (Raise (RequestException msg), set_net (w_net w ++ [rq])%list w).
Proof. unfold session_send. now intros ->. Qed.

Lemma Zeqb_200 z : z <> 200 -> negb (Z.eqb z 200) = true.
Proof. intros H. apply negb_true_iff, Z.eqb_neq, H. Qed.

(** ** Login *)

(** What each exit of the login handshake leaves in the session store: a
    failure writes nothing, a success writes the new session once. *)
Lemma login_handshake_writes env w :
  match login_handshake env w with
  | (Return session, w') =>
      w_redis_sets w'
      = (w_redis_sets w ++ [("twitter_session", pickle_dumps env session)])%list
      /\ w_redis w'
         = <["twitter_session" := pickle_dumps env session]> (w_redis w)
  | (Raise _, w') =>
      w_redis_sets w' = w_redis_sets w /\ w_redis w' = w_redis w
  end.
Proof.
  unfold login_handshake, bind, session_send.
  destruct (http env (w_net w) _ _) as [[msg|home] s1]; [now simpl|].
  destruct (negb _); [now simpl|].
  destruct (select env (text home) _) as [|el els]; [now simpl|].
  cbn [List.length Nat.eqb index0 ret].
  unfold getitem. destruct (assoc "value" (attrs el)) as [tok|]; [|now simpl].
  cbn [ret set_net w_net].
  destruct (http env _ s1 _) as [[msg|resp] s2]; [now simpl|].
  destruct (negb _); [now simpl|].
  unfold header_getitem. destruct (header "Location" (headers resp));
    [|now simpl].
  cbn [ret]. destruct (String.prefix _ _); now simpl.
Qed.

(** C8. When Redis holds a saved session that unpickles, [_login_twitter]
    returns that session and leaves the world as it was: no request is sent
    and nothing is written to Redis.  Conversely, in any world, a login that
    changes the list of Redis SET calls had no usable saved session, ended
    successfully, and made exactly one SET, of the new session. *)
Theorem login_cached_session_fast_path env w blob session :
  w_redis w !! "twitter_session" = Some blob ->
  pickle_loads env blob = Some session ->
  _login_twitter env w = (Return session, w)
  /\ (forall w0 r w0',
        _login_twitter env w0 = (r, w0') ->
        w_redis_sets w0' <> w_redis_sets w0 ->
        (forall b, w_redis w0 !! "twitter_session" = Some b ->
                   pickle_loads env b = None)
        /\ exists s,
             r = Return s
             /\ w_redis_sets w0'
                = (w_redis_sets w0
                     ++ [("twitter_session", pickle_dumps env s)])%list).
Proof.
  intros Hget Hloads. split.
  - unfold _login_twitter, bind, redis_get. now rewrite Hget, Hloads.
  - intros w0 r w0' Hrun Hneq.
    assert (Hfresh : login_handshake env w0 = (r, w0')
                     -> exists s, r = Return s
                        /\ w_redis_sets w0'
                           = (w_redis_sets w0
                                ++ [("twitter_session",
                                     pickle_dumps env s)])%list).
    { intros Hh. pose proof (login_handshake_writes env w0) as Hw.
      rewrite Hh in Hw. destruct r as [s|e].
      - exists s. now destruct Hw.
      - now destruct Hw. }
    unfold _login_twitter, bind, redis_get in Hrun.
    destruct (w_redis w0 !! "twitter_session") as [b0|] eqn:Hb0.
    + destruct (pickle_loads env b0) as [s0|] eqn:Hs0.
      * injection Hrun as <- <-. now contradiction Hneq.
      * split; [|now apply Hfresh].
        intros b [= <-]. exact Hs0.
    + split; [|now apply Hfresh]. intros b [=].
Qed.

Lemma login_cached_session_fast_path_witness :
  _login_twitter (Fixture.env true) Fixture.logged_in
  = (Return (mkSession [("auth_token", "t")]), Fixture.logged_in).
Proof.
  apply (login_cached_session_fast_path
           (Fixture.env true) Fixture.logged_in [Byte.x73]).
  - vm_compute. reflexivity.
  - reflexivity.
Defined.

(** ** Avatars *)

(** C9. When the download answers with a status other than 200,
    [scrape_twitter_avatar] raises its bare [ValueError] and the world differs
    from the initial one only by the request sent: no file row, no pending
    file, no modified profile, no commit, no published event.  The lookup of
    the profile comes after the download: with a 200 answer and no profile of
    that id the error is the missing-profile one, raised after the request
    was sent, again without any other change. *)
Theorem avatar_download_failure env id_ url w response session' :
  http env (w_net w) (mkSession []) (GET url) = (inr response, session') ->
  status_code response <> 200 ->
  scrape_twitter_avatar env id_ url w
  = (Raise (ValueError EmptyString), set_net (w_net w ++ [GET url])%list w)
  /\ (forall w0 response0 session0,
        http env (w_net w0) (mkSession []) (GET url)
        = (inr response0, session0) ->
        status_code response0 = 200 ->
        fst (db_query_first id_ w0) = Return None ->
        scrape_twitter_avatar env id_ url w0
        = (Raise (ValueError ("No profile exists with id=" +:+ pretty id_)),
           set_net (w_net w0 ++ [GET url])%list w0)).
Proof.
  intros Hhttp Hstatus. split.
  - unfold scrape_twitter_avatar.
    rewrite (bind_Return _ _ _ _ _ (session_send_response _ _ _ _ _ _ Hhttp)).
    cbn [fst]. rewrite (Zeqb_200 _ Hstatus). reflexivity.
  - intros w0 response0 session0 Hhttp0 Hok Hnone.
    unfold scrape_twitter_avatar.
    rewrite (bind_Return _ _ _ _ _
               (session_send_response _ _ _ _ _ _ Hhttp0)).
    cbn [fst]. rewrite Hok. cbn [Z.eqb Pos.eqb negb].
    unfold bind at 1. cbn [ret].
    unfold bind, db_query_first in *. cbn [fst w_profiles set_net] in *.
    injection Hnone as ->. reflexivity.
Qed.

Lemma avatar_download_failure_witness :
  scrape_twitter_avatar (Fixture.env true) 1
    "https://pbs.twimg.com/img/missing.png" Fixture.empty_world
  = (Raise (ValueError EmptyString),
     set_net [GET "https://pbs.twimg.com/img/missing.png"]
       Fixture.empty_world).
Proof.
  apply (avatar_download_failure (Fixture.env true) 1
           "https://pbs.twimg.com/img/missing.png" Fixture.empty_world
           (mkResponse 404 EmptyString [] []) (mkSession [])).
  - reflexivity.
  - simpl. lia.
Defined.

(** A status other than 302 in answer to the credentials raises
    [ValueError]; only the two requests are added to the world. *)
Lemma login_non_redirect_raises_ValueError
  env w home s1 el els token response s2 :
  w_redis w !! "twitter_session" = None ->
  http env (w_net w) (mkSession []) (GET login_url) = (inr home, s1) ->
  status_code home = 200 ->
  select env (text home) csrf_selector = el :: els ->
  assoc "value" (attrs el) = Some token ->
  http env (w_net w ++ [GET login_url])%list s1
    (POST sessions_url (login_payload token)) = (inr response, s2) ->
  status_code response <> 302 ->
  _login_twitter env w
  = (Raise (ValueError ("Not able to log in to Twitter "
                          +:+ pretty (status_code response))),
     set_net (w_net w ++ [GET login_url;
                          POST sessions_url (login_payload token)])%list w).
Proof.
  intros Hcache Hhome Hok Hsel Htok Hpost Hstatus.
  unfold _login_twitter, bind at 1, redis_get. rewrite Hcache.
  unfold login_handshake.
  rewrite (bind_Return _ _ _ _ _ (session_send_response _ _ _ _ _ _ Hhome)).
  rewrite Hok. cbn [Z.eqb Pos.eqb negb].
  fold csrf_selector. rewrite Hsel. cbn [List.length Nat.eqb].
  rewrite (bind_Return _ _ _ _ _ (index0_cons el els _)).
  rewrite (bind_Return _ _ _ _ _ (getitem_Some _ _ _ _ Htok)).
  fold (login_payload token).
  erewrite bind_Return; cycle 1.
  { apply session_send_response. cbn [w_net set_net]. exact Hpost. }
  cbv beta iota.
  replace (negb (Z.eqb (status_code response) 302)) with true
    by (symmetry; apply negb_true_iff, Z.eqb_neq, Hstatus).
  unfold bind at 1. cbn [raise]. f_equal.
  destruct w; cbn. now rewrite <- app_assoc.
Qed.

(** C6. Where the claim fails on the code: with no usable saved session, a
    login page that carries the token, and a 302 answer to the credentials
    whose Location starts with the login URL, [_login_twitter] raises
    [NameError] for the name [click], which scrape.py never imports, and not
    the [click.ClickException] it means to raise.  The two requests are the
    only change to the world: Redis is not written. *)
Theorem login_redirect_to_login_raises_NameError
  env w home s1 el els token response s2 location :
  w_redis w !! "twitter_session" = None ->
  http env (w_net w) (mkSession []) (GET login_url) = (inr home, s1) ->
  status_code home = 200 ->
  select env (text home) csrf_selector = el :: els ->
  assoc "value" (attrs el) = Some token ->
  http env (w_net w ++ [GET login_url])%list s1
    (POST sessions_url (login_payload token)) = (inr response, s2) ->
  status_code response = 302 ->
  header "Location" (headers response) = Some location ->
  String.prefix login_url location = true ->
  _login_twitter env w
  = (Raise (NameError "click"),
     set_net (w_net w ++ [GET login_url;
                          POST sessions_url (login_payload token)])%list w).
Proof.
  intros Hcache Hhome Hok Hsel Htok Hpost Hstatus Hloc Hprefix.
  unfold _login_twitter, bind at 1, redis_get. rewrite Hcache.
  unfold login_handshake.
  rewrite (bind_Return _ _ _ _ _ (session_send_response _ _ _ _ _ _ Hhome)).
  rewrite Hok. cbn [Z.eqb Pos.eqb negb].
  fold csrf_selector. rewrite Hsel. cbn [List.length Nat.eqb].
  rewrite (bind_Return _ _ _ _ _ (index0_cons el els _)).
  rewrite (bind_Return _ _ _ _ _ (getitem_Some _ _ _ _ Htok)).
  fold (login_payload token).
  erewrite bind_Return; cycle 1.
  { apply session_send_response. cbn [w_net set_net]. exact Hpost. }
  cbv beta iota. rewrite Hstatus. cbn [Z.eqb Pos.eqb negb].
  unfold bind at 1. unfold bind at 1. unfold header_getitem.
  rewrite Hloc. cbn [ret].
  change (twitter_url +:+ "/login") with login_url. rewrite Hprefix.
  unfold bind at 1. cbn [load_global module_globals existsb].
  vm_compute (String.eqb "click" _).
  cbn [orb raise]. f_equal.
  destruct w; cbn. now rewrite <- app_assoc.
Qed.

Lemma login_redirect_to_login_raises_NameError_witness :
  _login_twitter (Fixture.env false) Fixture.empty_world
  = (Raise (NameError "click"),
     set_net [GET login_url; POST sessions_url (login_payload "tok")]
       Fixture.empty_world).
Proof.
  apply (login_redirect_to_login_raises_NameError
           (Fixture.env false) Fixture.empty_world
           (Fixture.ok "login page") (mkSession [])
           (mkElement [("name", "authenticity_token"); ("value", "tok")]
              EmptyString) []
           "tok"
           (mkResponse 302 EmptyString
              [("location", "https://twitter.com/login/error")] [])
           (mkSession []) "https://twitter.com/login/error");
    reflexivity.
Defined.

(** ** The page fetch *)

(** The call on line 69 passes [code] and [message]; the constructor has no
    parameter [message]. *)
Lemma call_HTTPError_line_69 code message w :
  call_HTTPError [("code", code); ("message", message)] w
  = (Raise (TypeError unexpected_keyword_message), w).
Proof. reflexivity. Qed.

Lemma account_scrapers_twitter env :
  account_scrapers env !! "twitter" = Some (_scrape_twitter_account env).
Proof. unfold account_scrapers. apply lookup_singleton_eq. Qed.

Lemma scrape_twitter_account_non_200 env username w session w1 response s' :
  _login_twitter env w = (Return session, w1) ->
  http env (w_net w1) session (GET (home_url username)) = (inr response, s') ->
  status_code response <> 200 ->
  _scrape_twitter_account env username w
  = (Raise (TypeError unexpected_keyword_message),
     set_net (w_net w1 ++ [GET (home_url username)])%list w1).
Proof.
  intros Hlogin Hhttp Hstatus. unfold _scrape_twitter_account.
  rewrite (bind_Return _ _ _ _ _ Hlogin).
  rewrite (bind_Return _ _ _ _ _ (session_send_response _ _ _ _ _ _ Hhttp)).
  cbn [fst]. rewrite (Zeqb_200 _ Hstatus).
  unfold bind at 1. unfold bind at 1.
  now rewrite call_HTTPError_line_69.
Qed.

(** C4. Where the claim fails on the code: after a successful login, a page
    answer with any status other than 200 (404 included) makes line 69 raise
    [TypeError], so [scrape_account] takes its catch-all clause: it publishes
    the unknown-error message, without [error_code], and re-raises.  No
    profile is touched and no job is enqueued, but the message is not the
    not-found one. *)
Theorem scrape_account_non_200_is_unknown_error
  env username w session w1 response s' :
  _login_twitter env w = (Return session, w1) ->
  http env (w_net w1) session (GET (home_url username)) = (inr response, s') ->
  status_code response <> 200 ->
  scrape_account env "twitter" username w
  = (Raise (TypeError unexpected_keyword_message),
     set_published
       (w_published w1 ++ [("profile", unknown_error_message "twitter" username)])
       (set_net (w_net w1 ++ [GET (home_url username)])%list w1)).
Proof.
  intros Hlogin Hhttp Hstatus. unfold scrape_account.
  rewrite account_scrapers_twitter. unfold try_except.
  rewrite (bind_Raise _ _ _ _ _
             (scrape_twitter_account_non_200 _ _ _ _ _ _ _
                Hlogin Hhttp Hstatus)).
  reflexivity.
Qed.

Lemma scrape_account_non_200_is_unknown_error_witness :
  scrape_account (Fixture.env true) "twitter" "bob" Fixture.logged_in
  = (Raise (TypeError unexpected_keyword_message),
     set_published [("profile", unknown_error_message "twitter" "bob")]
       (set_net [GET "https://twitter.com/bob"] Fixture.logged_in)).
Proof.
  apply (scrape_account_non_200_is_unknown_error
           (Fixture.env true) "bob" Fixture.logged_in
           (mkSession [("auth_token", "t")]) Fixture.logged_in
           (mkResponse 404 EmptyString [] []) (mkSession [("auth_token", "t")])).
  - vm_compute. reflexivity.
  - reflexivity.
  - simpl. lia.
Defined.

(** ** The store *)

Lemma apply_dirty_empty rows : apply_dirty ∅ rows = rows.
Proof.
  unfold apply_dirty. induction rows as [|r rows IH]; [reflexivity|].
  cbn [map]. rewrite IH. f_equal.
  destruct (p_id r); [now rewrite lookup_empty | reflexivity].
Qed.

Lemma max_id_ge ids i : In (Some i) ids -> i <= max_id ids.
Proof.
  induction ids as [|j ids IH]; [intros []|].
  intros [->|Hin]; unfold max_id; cbn [fold_right]; fold (max_id ids).
  - unfold default. cbn. lia.
  - specialize (IH Hin). lia.
Qed.


(** The world after a commit or a rollback has a clean session. *)
Lemma clean_eta w :
  clean_session w ->
  set_dirty ∅ (set_pending_files [] (set_pending [] w)) = w.
Proof. destruct w. intros (H1 & H2 & H3). cbn in *. now subst. Qed.

Lemma existsb_filter {A} (f : A -> bool) l :
  existsb f l = false <-> List.filter f l = [].
Proof.
  induction l as [|x l IH]; [easy|]. cbn. destruct (f x); cbn; [easy|].
  exact IH.
Qed.

(** The upsert on a clean session, for an identity that is not stored: a row
    is inserted under a new key and the object now carries that key. *)
Lemma upsert_profile_new user_id username w :
  clean_session w ->
  existsb (same_identity "twitter" user_id) (w_profiles w) = false ->
  let p := with_id (fresh_profile_id (w_profiles w))
             (new_Profile "twitter" user_id username) in
  upsert_profile user_id username w
  = (Return p, set_profiles (w_profiles w ++ [p]) w).
Proof.
  intros (Hp & Hf & Hd) Hnew p. unfold upsert_profile.
  unfold bind at 1. cbn [db_add modify]. unfold try_except, bind, db_commit.
  cbn [w_pending set_pending w_profiles w_pending_files w_files w_dirty].
  rewrite Hp, Hf, Hd. cbn [app flush_profiles flush_files].
  cbn [new_Profile p_site p_original_id]. rewrite Hnew.
  rewrite apply_dirty_empty. cbn [fl_profiles last default ret].
  f_equal. destruct w; cbn in *. now subst.
Qed.

(** The upsert on a clean session, for an identity that is stored once: the
    insert is refused, the session is rolled back, and the stored row is
    returned; nothing is written. *)
Lemma upsert_profile_existing user_id username w p0 :
  clean_session w ->
  List.filter (same_identity "twitter" user_id) (w_profiles w) = [p0] ->
  upsert_profile user_id username w = (Return p0, w).
Proof.
  intros Hclean Hrow. pose proof Hclean as (Hp & Hf & Hd).
  unfold upsert_profile.
  unfold bind at 1. cbn [db_add modify]. unfold try_except, bind, db_commit.
  cbn [w_pending set_pending w_profiles w_pending_files w_files w_dirty].
  rewrite Hp. cbn [app flush_profiles].
  cbn [new_Profile p_site p_original_id].
  destruct (existsb _ (w_profiles w)) eqn:Hex.
  - cbn [db_rollback modify]. unfold db_query_one.
    cbn [w_profiles set_dirty set_pending_files set_pending].
    rewrite Hrow. f_equal.
    transitivity (set_dirty ∅ (set_pending_files [] (set_pending [] w))).
    + destruct w; reflexivity.
    + now apply clean_eta.
  - apply existsb_filter in Hex. congruence.
Qed.

Lemma same_store_refl w : same_store w w.
Proof. now repeat split. Qed.

Lemma login_handshake_same_store env w :
  same_store w (snd (login_handshake env w)).
Proof.
  unfold login_handshake, bind, session_send.
  destruct (http env (w_net w) _ _) as [[msg|home] s1];
    [now repeat split|].
  destruct (negb _); [now repeat split|].
  destruct (select env (text home) _) as [|el els]; [now repeat split|].
  cbn [List.length Nat.eqb index0 ret].
  unfold getitem. destruct (assoc "value" (attrs el)) as [tok|];
    [|now repeat split].
  cbn [ret set_net w_net].
  destruct (http env _ s1 _) as [[msg|resp] s2]; [now repeat split|].
  destruct (negb _); [now repeat split|].
  unfold header_getitem. destruct (header "Location" (headers resp));
    [|now repeat split].
  cbn [ret]. destruct (String.prefix _ _); now repeat split.
Qed.

Lemma login_same_store env w : same_store w (snd (_login_twitter env w)).
Proof.
  unfold _login_twitter, bind, redis_get.
  destruct (w_redis w !! "twitter_session") as [blob|].
  - destruct (pickle_loads env blob).
    + apply same_store_refl.
    + apply login_handshake_same_store.
  - apply login_handshake_same_store.
Qed.


(** ** A page of the expected layout *)

Lemma setattr_persistent f p i w :
  p_id (f p) = Some i ->
  setattr f p w = (Return (f p), set_dirty (<[i := f p]> (w_dirty w)) w).
Proof. intros H. unfold setattr, bind, modify, ret. now rewrite H. Qed.

Lemma db_commit_updates w :
  w_pending w = [] -> w_pending_files w = [] ->
  db_commit w
  = (Return (mkFlushed [] []),
     set_dirty ∅ (set_profiles (apply_dirty (w_dirty w) (w_profiles w)) w)).
Proof.
  intros Hp Hf. unfold db_commit. rewrite Hp, Hf. cbn [flush_profiles flush_files].
  f_equal. destruct w; cbn in *. now subst.
Qed.

Ltac run H := rewrite (bind_Return _ _ _ _ _ H); cbv beta iota.
Ltac run_by tac := erewrite bind_Return; [| solve [tac]]; cbv beta iota.

(** The scrape of a page of the expected layout, from the upsert on: the four
    fields are assigned on the resolved profile and committed, the two jobs
    are enqueued and the data is returned. *)
Lemma scrape_twitter_account_returns
  env username w session w1 response s' s p w2 i :
  _login_twitter env w = (Return session, w1) ->
  http env (w_net w1) session (GET (home_url username)) = (inr response, s') ->
  status_code response = 200 ->
  page_yields env (text response) s ->
  upsert_profile (s_user_id s) username
    (set_net (w_net w1 ++ [GET (home_url username)])%list w1)
  = (Return p, w2) ->
  clean_session w2 ->
  p_id p = Some i ->
  exists w',
    _scrape_twitter_account env username w
    = (Return (success_message username s (VInt i)), w')
    /\ w_profiles w' = apply_dirty {[ i := with_scraped s p ]} (w_profiles w2)
    /\ w_scrape_queue w'
       = (w_scrape_queue w2
            ++ [Job_scrape_twitter_avatar (VInt i) (s_avatar_url s)])%list
    /\ w_index_queue w' = (w_index_queue w2 ++ [Job_index_profile (VInt i)])%list
    /\ w_published w' = w_published w2
    /\ w_files w' = w_files w2
    /\ clean_session w'.
Proof.
  intros Hlogin Hhttp Hok Hpage Hupsert (Hp & Hf & Hd) Hid.
  destruct Hpage as ((id_el & Hid_el & Huid) & (bio_el & Hbio_el & Hbio)
    & (tw_el & Htw_el & Htw) & (fr_el & Hfr_el & Hfr)
    & (fo_el & Hfo_el & Hfo) & (av_el & Hav_el & Hav)).
  unfold _scrape_twitter_account.
  run Hlogin.
  run (session_send_response _ _ _ _ _ _ Hhttp).
  cbn [fst]. rewrite Hok. cbn [Z.eqb Pos.eqb negb].
  unfold bind at 1. cbn [ret].
  run (index0_head _ _ (set_net (w_net w1 ++ [GET (home_url username)]) w1)
         Hid_el).
  run (getitem_Some _ _ _ (set_net (w_net w1 ++ [GET (home_url username)]) w1)
         Huid).
  run Hupsert.
  run (index0_head _ _ w2 Hbio_el).
  run_by ltac:(apply (setattr_persistent _ _ i); exact Hid).
  run_by ltac:(apply index0_head; exact Htw_el).
  run_by ltac:(apply int_Some; exact Htw).
  run_by ltac:(apply int_Some; exact Htw).
  run_by ltac:(apply (setattr_persistent _ _ i); exact Hid).
  run_by ltac:(apply index0_head; exact Hfr_el).
  run_by ltac:(apply int_Some; exact Hfr).
  run_by ltac:(apply int_Some; exact Hfr).
  run_by ltac:(apply (setattr_persistent _ _ i); exact Hid).
  run_by ltac:(apply index0_head; exact Hfo_el).
  run_by ltac:(apply int_Some; exact Hfo).
  run_by ltac:(apply int_Some; exact Hfo).
  run_by ltac:(apply (setattr_persistent _ _ i); exact Hid).
  run_by ltac:(apply index0_head; exact Hav_el).
  run_by ltac:(apply getitem_Some; exact Hav).
  run_by ltac:(apply db_commit_updates; [exact Hp | exact Hf]).
  unfold bind, scrape_queue_enqueue, index_queue_enqueue, modify, ret.
  cbn [p_id with_follower_count with_friend_count with_post_count
       with_description].
  rewrite Hid, Hbio. eexists. split; [reflexivity|].
  cbn [w_profiles w_scrape_queue w_index_queue w_published w_files w_dirty
       set_profiles set_dirty set_scrape_queue set_index_queue].
  repeat split; try (cbn; assumption).
  rewrite Hd, !insert_insert_eq, insert_empty. reflexivity.
Qed.



Lemma scrape_account_returns env username w data w' :
  _scrape_twitter_account env username w = (Return data, w') ->
  scrape_account env "twitter" username w
  = (Return tt, set_published (w_published w' ++ [("profile", data)]) w').
Proof.
  intros Hrun. unfold scrape_account. rewrite account_scrapers_twitter.
  unfold try_except. now rewrite (bind_Return _ _ _ _ _ Hrun).
Qed.

(** ** Scenarios *)








(** ** What a computation leaves alone, and what it can raise *)

Section Frames.

Context {X : Type} (f : World -> X).

Lemma keeps_ret {A} (a : A) : keeps f (ret a).
Proof. now intros w. Qed.

Lemma keeps_raise {A} e : keeps f (@raise A e).
Proof. now intros w. Qed.

Lemma keeps_bind {A B} (c : M A) (k : A -> M B) :
  keeps f c -> (forall a, keeps f (k a)) -> keeps f (bind c k).
Proof.
  intros Hc Hk w. unfold bind. specialize (Hc w).
  destruct (c w) as [[a|e] w1]; cbn [snd] in *; [|exact Hc].
  now rewrite Hk.
Qed.

Lemma keeps_try_except {A} (c : M A) h :
  keeps f c -> (forall e, keeps f (h e)) -> keeps f (try_except c h).
Proof.
  intros Hc Hh w. unfold try_except. specialize (Hc w).
  destruct (c w) as [[a|e] w1]; cbn [snd] in *; [exact Hc|].
  now rewrite Hh.
Qed.

Lemma keeps_modify g : (forall w, f (g w) = f w) -> keeps f (modify g).
Proof. intros Hg w. apply Hg. Qed.

Lemma keeps_index0 {A} (l : list A) : keeps f (index0 l).
Proof. destruct l; [apply keeps_raise | apply keeps_ret]. Qed.

Lemma keeps_getitem el k : keeps f (getitem el k).
Proof. unfold getitem. destruct (assoc _ _); [apply keeps_ret | apply keeps_raise]. Qed.

Lemma keeps_header_getitem r k : keeps f (header_getitem r k).
Proof.
  unfold header_getitem.
  destruct (header _ _); [apply keeps_ret | apply keeps_raise].
Qed.

Lemma keeps_int s : keeps f (int s).
Proof. unfold int. destruct (parse_int s); [apply keeps_ret | apply keeps_raise]. Qed.

Lemma keeps_load_global name : keeps f (load_global name).
Proof.
  unfold load_global. destruct (existsb _ _); [apply keeps_ret | apply keeps_raise].
Qed.

Lemma keeps_call_HTTPError kwargs : keeps f (call_HTTPError kwargs).
Proof.
  unfold call_HTTPError. destruct (List.find _ _) as [[k v]|].
  - apply keeps_raise.
  - destruct (forallb _ _); [apply keeps_ret | apply keeps_raise].
Qed.

Lemma keeps_redis_get k : keeps f (redis_get k).
Proof. now intros w. Qed.

Lemma keeps_db_query_one site oid : keeps f (db_query_one site oid).
Proof.
  intros w. unfold db_query_one.
  destruct (List.filter _ _) as [|p [|q l]]; reflexivity.
Qed.

Lemma keeps_db_query_first i : keeps f (db_query_first i).
Proof. now intros w. Qed.

End Frames.

(** Nothing but [redis_publish] touches the published messages. *)
Lemma keeps_published_session_send env session rq :
  keeps w_published (session_send env session rq).
Proof.
  intros w. unfold session_send.
  destruct (http env _ _ _) as [[msg|r] s]; reflexivity.
Qed.

Lemma keeps_published_db_commit : keeps w_published db_commit.
Proof.
  intros w. unfold db_commit.
  destruct (flush_profiles _ _) as [[rows fl]|]; [|reflexivity].
  destruct (flush_files _ _); reflexivity.
Qed.

Lemma keeps_published_setattr g p : keeps w_published (setattr g p).
Proof.
  unfold setattr. apply keeps_bind; [|intros; apply keeps_ret].
  apply keeps_modify. intros w. now destruct (p_id (g p)).
Qed.

Lemma keeps_published_login env : keeps w_published (_login_twitter env).
Proof. intros w. apply (login_same_store env w). Qed.

Lemma keeps_published_upsert_profile user_id username :
  keeps w_published (upsert_profile user_id username).
Proof.
  unfold upsert_profile.
  apply keeps_bind; [now apply keeps_modify|intros _].
  apply keeps_try_except.
  - apply keeps_bind; [apply keeps_published_db_commit|].
    intros; apply keeps_ret.
  - intros []; try apply keeps_raise.
    apply keeps_bind; [now apply keeps_modify|intros _].
    apply keeps_db_query_one.
Qed.

Ltac keeps_published_step :=
  first
    [ apply keeps_ret | apply keeps_raise | apply keeps_index0
    | apply keeps_getitem | apply keeps_int | apply keeps_call_HTTPError
    | apply keeps_published_session_send | apply keeps_published_db_commit
    | apply keeps_published_setattr | apply keeps_published_login
    | apply keeps_published_upsert_profile
    | apply keeps_modify; intros; reflexivity
    | apply keeps_bind; [|intros]
    | match goal with
      | |- keeps _ (if ?b then _ else _) => destruct b
      end ].

Lemma keeps_published_scrape_twitter_account env username :
  keeps w_published (_scrape_twitter_account env username).
Proof.
  unfold _scrape_twitter_account, scrape_queue_enqueue, index_queue_enqueue.
  repeat keeps_published_step.
Qed.

Lemma no_HTTPError_ret {A} (a : A) : no_HTTPError (ret a).
Proof. now intros w. Qed.

Lemma no_HTTPError_raise {A} e :
  is_HTTPError e = false -> no_HTTPError (@raise A e).
Proof. now intros He w. Qed.

Lemma no_HTTPError_bind {A B} (c : M A) (k : A -> M B) :
  no_HTTPError c -> (forall a, no_HTTPError (k a)) -> no_HTTPError (bind c k).
Proof.
  intros Hc Hk w. unfold bind. specialize (Hc w).
  destruct (c w) as [[a|e] w1]; cbn [fst] in *; [apply Hk | exact Hc].
Qed.

Lemma no_HTTPError_try_except {A} (c : M A) h :
  no_HTTPError c ->
  (forall e, is_HTTPError e = false -> no_HTTPError (h e)) ->
  no_HTTPError (try_except c h).
Proof.
  intros Hc Hh w. unfold try_except. specialize (Hc w).
  destruct (c w) as [[a|e] w1]; cbn [fst] in *; [exact I | now apply Hh].
Qed.

Lemma no_HTTPError_modify g : no_HTTPError (modify g).
Proof. now intros w. Qed.

Lemma no_HTTPError_index0 {A} (l : list A) : no_HTTPError (index0 l).
Proof. now destruct l; intros w. Qed.

Lemma no_HTTPError_getitem el k : no_HTTPError (getitem el k).
Proof. unfold getitem. now destruct (assoc _ _); intros w. Qed.

Lemma no_HTTPError_int s : no_HTTPError (int s).
Proof. unfold int. now destruct (parse_int s); intros w. Qed.

Lemma no_HTTPError_session_send env session rq :
  no_HTTPError (session_send env session rq).
Proof.
  intros w. unfold session_send. now destruct (http env _ _ _) as [[msg|r] s].
Qed.

Lemma no_HTTPError_db_commit : no_HTTPError db_commit.
Proof.
  intros w. unfold db_commit.
  destruct (flush_profiles _ _) as [[rows fl]|]; [|reflexivity].
  now destruct (flush_files _ _).
Qed.

Lemma no_HTTPError_db_query_one site oid : no_HTTPError (db_query_one site oid).
Proof.
  intros w. unfold db_query_one.
  now destruct (List.filter _ _) as [|p [|q l]].
Qed.

Lemma no_HTTPError_setattr g p : no_HTTPError (setattr g p).
Proof. now intros w. Qed.

Lemma no_HTTPError_upsert_profile user_id username :
  no_HTTPError (upsert_profile user_id username).
Proof.
  unfold upsert_profile.
  apply no_HTTPError_bind; [apply no_HTTPError_modify|intros _].
  apply no_HTTPError_try_except.
  - apply no_HTTPError_bind; [apply no_HTTPError_db_commit|].
    intros; apply no_HTTPError_ret.
  - intros [] He; try discriminate He; try now apply no_HTTPError_raise.
    apply no_HTTPError_bind; [apply no_HTTPError_modify|intros _].
    apply no_HTTPError_db_query_one.
Qed.

Lemma no_HTTPError_login_handshake env : no_HTTPError (login_handshake env).
Proof.
  intros w. unfold login_handshake, bind, session_send.
  destruct (http env (w_net w) _ _) as [[msg|home] s1]; [now simpl|].
  destruct (negb _); [now simpl|].
  destruct (select env (text home) _) as [|el els]; [now simpl|].
  cbn [List.length Nat.eqb index0 ret].
  unfold getitem. destruct (assoc "value" (attrs el)) as [tok|]; [|now simpl].
  cbn [ret set_net w_net].
  destruct (http env _ s1 _) as [[msg|resp] s2]; [now simpl|].
  destruct (negb _); [now simpl|].
  unfold header_getitem. destruct (header "Location" (headers resp));
    [|now simpl].
  cbn [ret]. destruct (String.prefix _ _); now simpl.
Qed.

Lemma no_HTTPError_login env : no_HTTPError (_login_twitter env).
Proof.
  intros w. unfold _login_twitter, bind, redis_get.
  destruct (w_redis w !! "twitter_session") as [blob|].
  - destruct (pickle_loads env blob); [exact I|].
    apply no_HTTPError_login_handshake.
  - apply no_HTTPError_login_handshake.
Qed.

(** Line 69 never gets to raise the exception it builds. *)
Lemma no_HTTPError_line_69 code message :
  no_HTTPError
    (A := unit)
    (e <- call_HTTPError [("code", code); ("message", message)] ;; raise e).
Proof.
  intros w. unfold bind. now rewrite call_HTTPError_line_69.
Qed.

Ltac no_HTTPError_step :=
  first
    [ apply no_HTTPError_ret | apply no_HTTPError_line_69
    | apply no_HTTPError_index0 | apply no_HTTPError_getitem
    | apply no_HTTPError_int | apply no_HTTPError_session_send
    | apply no_HTTPError_db_commit | apply no_HTTPError_setattr
    | apply no_HTTPError_login | apply no_HTTPError_upsert_profile
    | apply no_HTTPError_modify
    | apply no_HTTPError_bind; [|intros]
    | match goal with
      | |- no_HTTPError (if ?b then _ else _) => destruct b
      end ].

(** The Twitter scraper never raises [HTTPError]. *)
Lemma no_HTTPError_scrape_twitter_account env username :
  no_HTTPError (_scrape_twitter_account env username).
Proof.
  unfold _scrape_twitter_account, scrape_queue_enqueue, index_queue_enqueue.
  repeat no_HTTPError_step.
Qed.

(** ** The terminal message *)


Lemma scrape_account_except_other site name e w :
  is_HTTPError e = false ->
  scrape_account_except site name e w
  = (Raise e, publish (unknown_error_message site name) w).
Proof. now destruct e. Qed.



Lemma scrape_account_raises env username w e w2 :
  _scrape_twitter_account env username w = (Raise e, w2) ->
  scrape_account env "twitter" username w
  = (Raise e, publish (unknown_error_message "twitter" username) w2)
  /\ is_HTTPError e = false
  /\ w_published w2 = w_published w.
Proof.
  intros Hrun.
  pose proof (no_HTTPError_scrape_twitter_account env username w) as He.
  pose proof (keeps_published_scrape_twitter_account env username w) as Hk.
  rewrite Hrun in He, Hk. cbn [fst snd] in He, Hk.
  repeat split; [|exact He|exact Hk].
  unfold scrape_account. rewrite account_scrapers_twitter.
  unfold try_except. rewrite (bind_Raise _ _ _ _ _ Hrun).
  now apply scrape_account_except_other.
Qed.

(** ** Missing selectors *)






(** ** A failure between the two commits *)

Lemma bind_Raise_inv {A B} (c : M A) (k : A -> M B) w e w' :
  bind c k w = (Raise e, w') ->
  c w = (Raise e, w')
  \/ exists a w1, c w = (Return a, w1) /\ k a w1 = (Raise e, w').
Proof.
  unfold bind. destruct (c w) as [[a|e0] w1]; intros H.
  - right. now exists a, w1.
  - left. now injection H as -> ->.
Qed.

Lemma keeps_run {X A} (f : World -> X) (c : M A) w r w' :
  keeps f c -> c w = (r, w') -> f w' = f w.
Proof. intros Hk Hrun. specialize (Hk w). now rewrite Hrun in Hk. Qed.

Lemma keeps_committed_setattr g p : keeps committed (setattr g p).
Proof.
  unfold setattr. apply keeps_bind; [|intros; apply keeps_ret].
  apply keeps_modify. intros w. now destruct (p_id (g p)).
Qed.

Create HintDb frames.
#[local] Hint Resolve keeps_index0 keeps_getitem keeps_int
  keeps_committed_setattr : frames.





(** ** Concurrent upserts *)





(** The field commit on a clean session: one UPDATE, of the row that has the
    key of the resolved profile. *)
Lemma commit_fields_clean s p i w :
  clean_session w ->
  p_id p = Some i ->
  commit_fields s p w
  = (Return (with_scraped s p),
     set_profiles (apply_dirty {[ i := with_scraped s p ]} (w_profiles w)) w).
Proof.
  intros (Hp & Hf & Hd) Hid. unfold commit_fields.
  run_by ltac:(apply (setattr_persistent _ _ i); exact Hid).
  run_by ltac:(apply (setattr_persistent _ _ i); exact Hid).
  run_by ltac:(apply (setattr_persistent _ _ i); exact Hid).
  run_by ltac:(apply (setattr_persistent _ _ i); exact Hid).
  run_by ltac:(apply db_commit_updates; [exact Hp | exact Hf]).
  unfold ret. f_equal.
  cbn [w_dirty w_profiles set_dirty].
  rewrite Hd, !insert_insert_eq, insert_empty.
  destruct w; cbn in *. now subst.
Qed.

Lemma same_identity_true site original_id p :
  same_identity site original_id p = true ->
  p_site p = site /\ p_original_id p = original_id.
Proof.
  unfold same_identity. intros H. apply andb_true_iff in H as [H1 H2].
  apply String.eqb_eq in H1. apply String.eqb_eq in H2. now split.
Qed.




(** *** Tables with the same keys *)












Lemma filter_one_of_unique rows user_id :
  unique_identities rows ->
  existsb (same_identity "twitter" user_id) rows = true ->
  exists p, List.filter (same_identity "twitter" user_id) rows = [p].
Proof.
  intros Huniq Hex. specialize (Huniq "twitter" user_id).
  destruct (List.filter _ rows) as [|p [|q l]] eqn:Hrow.
  - apply existsb_filter in Hrow. congruence.
  - now exists p.
  - cbn in Huniq. lia.
Qed.












(** The field commit of a worker is what the scrape of the source writes
    after the upsert. *)
Lemma scrape_twitter_account_commits_fields
  env username w session w1 response s' s p w2 i :
  _login_twitter env w = (Return session, w1) ->
  http env (w_net w1) session (GET (home_url username)) = (inr response, s') ->
  status_code response = 200 ->
  page_yields env (text response) s ->
  upsert_profile (s_user_id s) username
    (set_net (w_net w1 ++ [GET (home_url username)])%list w1)
  = (Return p, w2) ->
  clean_session w2 ->
  p_id p = Some i ->
  w_profiles (snd (_scrape_twitter_account env username w))
  = w_profiles (snd (commit_fields s p w2)).
Proof.
  intros Hlogin Hhttp Hok Hpage Hupsert Hclean Hid.
  destruct (scrape_twitter_account_returns env username w session w1
              response s' s p w2 i Hlogin Hhttp Hok Hpage Hupsert Hclean Hid)
    as (w' & Hrun & Hrows & _).
  rewrite Hrun, (commit_fields_clean _ _ i _ Hclean Hid). cbn [snd].
  exact Hrows.
Qed.

(** Two workers on one account, the second finishing first: one row, which
    keeps the handle of the worker that inserted it and has the fields of the
    worker that committed last. *)
Example race_one_row_last_writer_wins :
  sys_rows (run_schedule [0; 1; 1; 1; 0]%nat Fixture.race)
  = [mkProfile (Some 1) "twitter" "4242" "alice" (Some "First bio") (Some 1)
       (Some 2) (Some 3)].
Proof. vm_compute. reflexivity. Qed.

(** * Further properties of the worker *)

(** ** The dispatch on the site *)

(** X1. For a site that has no scraper, [scrape_account] raises [ValueError]
    and does nothing else: no login, no request, no message. *)
Theorem scrape_account_unsupported_site env site name w :
  site <> "twitter" ->
  scrape_account env site name w
  = (Raise (ValueError ("No scraper exists for site " +:+ dquote +:+ site
                          +:+ dquote)), w).
Proof.
  intros Hsite. unfold scrape_account, account_scrapers.
  rewrite lookup_singleton_ne by congruence. reflexivity.
Qed.

Lemma scrape_account_unsupported_site_witness :
  scrape_account (Fixture.env true) "facebook" "alice" Fixture.logged_in
  = (Raise (ValueError ("No scraper exists for site " +:+ dquote
                          +:+ "facebook" +:+ dquote)), Fixture.logged_in).
Proof.
  apply (scrape_account_unsupported_site (Fixture.env true) "facebook").
  discriminate.
Defined.

(** ** The login handshake *)

Lemma login_without_saved_session env w :
  no_saved_session env w -> _login_twitter env w = login_handshake env w.
Proof.
  intros Hnone. unfold _login_twitter, bind, redis_get.
  destruct (w_redis w !! "twitter_session") as [blob|] eqn:Hblob;
    [|reflexivity].
  now rewrite (Hnone blob Hblob).
Qed.

(** X2. A login page that does not answer 200 ends the login with
    [ValueError], which carries the status: the page is the only request made
    (the credentials are not sent) and Redis is not written. *)
Theorem login_page_not_200 env w home s1 :
  no_saved_session env w ->
  http env (w_net w) (mkSession []) (GET login_url) = (inr home, s1) ->
  status_code home <> 200 ->
  _login_twitter env w
  = (Raise (ValueError ("Not able to fetch Twitter login page ("
                          +:+ pretty (status_code home) +:+ ")")),
     sent [GET login_url] w).
Proof.
  intros Hnone Hhome Hstatus. rewrite (login_without_saved_session _ _ Hnone).
  unfold login_handshake.
  rewrite (bind_Return _ _ _ _ _ (session_send_response _ _ _ _ _ _ Hhome)).
  now rewrite (Zeqb_200 _ Hstatus).
Qed.

Lemma login_page_not_200_witness :
  _login_twitter
    (mkEnv (fun _ session _ => (inr (mkResponse 503 EmptyString [] []), session))
       (fun _ _ => []) (fun _ => None) (fun _ => []))
    Fixture.empty_world
  = (Raise (ValueError "Not able to fetch Twitter login page (503)"),
     sent [GET login_url] Fixture.empty_world).
Proof.
  apply (login_page_not_200 _ Fixture.empty_world
           (mkResponse 503 EmptyString [] []) (mkSession [])).
  - intros blob Hblob. vm_compute in Hblob. discriminate.
  - reflexivity.
  - simpl. lia.
Defined.

(** X3. A login page without the token element ends the login with
    [ValueError]: the credentials are not sent and Redis is not written. *)
Theorem login_page_without_token env w home s1 :
  no_saved_session env w ->
  http env (w_net w) (mkSession []) (GET login_url) = (inr home, s1) ->
  status_code home = 200 ->
  select env (text home) csrf_selector = [] ->
  _login_twitter env w
  = (Raise (ValueError ("Expected >=1 elements matching selector " +:+ dquote
                          +:+ csrf_selector +:+ dquote
                          +:+ ", found 0 instead.")),
     sent [GET login_url] w).
Proof.
  intros Hnone Hhome Hok Hsel. rewrite (login_without_saved_session _ _ Hnone).
  unfold login_handshake.
  rewrite (bind_Return _ _ _ _ _ (session_send_response _ _ _ _ _ _ Hhome)).
  rewrite Hok. cbn [Z.eqb Pos.eqb negb]. fold csrf_selector.
  now rewrite Hsel.
Qed.

Lemma login_page_without_token_witness :
  fst (_login_twitter
         (mkEnv (fun _ session _ => (inr (Fixture.ok "no form"), session))
            Fixture.page_select (fun _ => None) (fun _ => []))
         Fixture.empty_world)
  = Raise (ValueError ("Expected >=1 elements matching selector " +:+ dquote
                         +:+ csrf_selector +:+ dquote
                         +:+ ", found 0 instead.")).
Proof.
  erewrite (login_page_without_token _ Fixture.empty_world
              (Fixture.ok "no form") (mkSession [])).
  - reflexivity.
  - intros blob Hblob. vm_compute in Hblob. discriminate.
  - reflexivity.
  - reflexivity.
  - reflexivity.
Defined.

(** The handshake up to the answer to the credentials. *)
Ltac login_to_post Hnone Hhome Hok Hsel Htok Hpost token :=
  rewrite (login_without_saved_session _ _ Hnone); unfold login_handshake;
  rewrite (bind_Return _ _ _ _ _ (session_send_response _ _ _ _ _ _ Hhome));
  rewrite Hok; cbn [Z.eqb Pos.eqb negb]; fold csrf_selector; rewrite Hsel;
  cbn [List.length Nat.eqb];
  rewrite (bind_Return _ _ _ _ _ (index0_cons _ _ _));
  rewrite (bind_Return _ _ _ _ _ (getitem_Some _ _ _ _ Htok));
  fold (login_payload token);
  (erewrite bind_Return;
   [| apply session_send_response; cbn [w_net set_net]; exact Hpost]);
  cbv beta iota.

Lemma sent_twice rq1 rq2 w :
  set_net (w_net (set_net (w_net w ++ [rq1]) w) ++ [rq2])
    (set_net (w_net w ++ [rq1]) w)
  = sent [rq1; rq2] w.
Proof. unfold sent. destruct w; cbn. now rewrite <- app_assoc. Qed.

(** X4. An answer to the credentials that is not a 302 ends the login with
    [ValueError], which carries the status; the token sent is the [value] of
    the first matching element; Redis is not written. *)
Theorem login_not_redirected env w home s1 el els token response s2 :
  no_saved_session env w ->
  http env (w_net w) (mkSession []) (GET login_url) = (inr home, s1) ->
  status_code home = 200 ->
  select env (text home) csrf_selector = el :: els ->
  assoc "value" (attrs el) = Some token ->
  http env (w_net w ++ [GET login_url])%list s1
    (POST sessions_url (login_payload token)) = (inr response, s2) ->
  status_code response <> 302 ->
  _login_twitter env w
  = (Raise (ValueError ("Not able to log in to Twitter "
                          +:+ pretty (status_code response))),
     sent [GET login_url; POST sessions_url (login_payload token)] w).
Proof.
  intros Hnone Hhome Hok Hsel Htok Hpost Hstatus.
  login_to_post Hnone Hhome Hok Hsel Htok Hpost token.
  replace (negb (Z.eqb (status_code response) 302)) with true
    by (symmetry; apply negb_true_iff, Z.eqb_neq, Hstatus).
  unfold bind at 1. cbn [raise]. now rewrite sent_twice.
Qed.

(** X5. A 302 answer that has no Location header ends the login with
    [KeyError]; Redis is not written. *)
Theorem login_redirect_without_location
  env w home s1 el els token response s2 :
  no_saved_session env w ->
  http env (w_net w) (mkSession []) (GET login_url) = (inr home, s1) ->
  status_code home = 200 ->
  select env (text home) csrf_selector = el :: els ->
  assoc "value" (attrs el) = Some token ->
  http env (w_net w ++ [GET login_url])%list s1
    (POST sessions_url (login_payload token)) = (inr response, s2) ->
  status_code response = 302 ->
  header "Location" (headers response) = None ->
  _login_twitter env w
  = (Raise (KeyError "location"),
     sent [GET login_url; POST sessions_url (login_payload token)] w).
Proof.
  intros Hnone Hhome Hok Hsel Htok Hpost Hstatus Hloc.
  login_to_post Hnone Hhome Hok Hsel Htok Hpost token.
  rewrite Hstatus. cbn [Z.eqb Pos.eqb negb].
  unfold bind at 1. unfold bind at 1. unfold header_getitem. rewrite Hloc.
  cbn [raise]. now rewrite sent_twice.
Qed.

(** X6. A login that goes through: with no saved session that unpickles (none
    at all, or a stale one), a 200 login page with the token, and a 302
    answer whose Location does not start with the login URL,
    [_login_twitter] returns the session as the two requests left it, having
    sent exactly these two requests and written the pickled session under
    [twitter_session] once, over whatever the key held. *)
Theorem login_success env w home s1 el els token response s2 location :
  no_saved_session env w ->
  http env (w_net w) (mkSession []) (GET login_url) = (inr home, s1) ->
  status_code home = 200 ->
  select env (text home) csrf_selector = el :: els ->
  assoc "value" (attrs el) = Some token ->
  http env (w_net w ++ [GET login_url])%list s1
    (POST sessions_url (login_payload token)) = (inr response, s2) ->
  status_code response = 302 ->
  header "Location" (headers response) = Some location ->
  String.prefix login_url location = false ->
  _login_twitter env w
  = (Return s2,
     set_redis_sets
       (w_redis_sets w ++ [("twitter_session", pickle_dumps env s2)])
       (set_redis (<["twitter_session" := pickle_dumps env s2]> (w_redis w))
          (sent [GET login_url; POST sessions_url (login_payload token)] w))).
Proof.
  intros Hnone Hhome Hok Hsel Htok Hpost Hstatus Hloc Hprefix.
  login_to_post Hnone Hhome Hok Hsel Htok Hpost token.
  rewrite Hstatus. cbn [Z.eqb Pos.eqb negb].
  unfold bind at 1. unfold bind at 1. unfold header_getitem. rewrite Hloc.
  cbn [ret]. change (twitter_url +:+ "/login") with login_url.
  rewrite Hprefix. cbn [ret]. unfold bind, redis_set, modify, ret.
  rewrite sent_twice. reflexivity.
Qed.

Lemma no_saved_session_empty env : no_saved_session env Fixture.empty_world.
Proof. intros blob Hblob. vm_compute in Hblob. discriminate. Qed.

Lemma login_not_redirected_witness :
  _login_twitter (login_env (mkResponse 500 EmptyString [] []))
    Fixture.empty_world
  = (Raise (ValueError "Not able to log in to Twitter 500"),
     sent [GET login_url; POST sessions_url (login_payload "tok")]
       Fixture.empty_world).
Proof.
  apply (login_not_redirected (login_env (mkResponse 500 EmptyString [] []))
           Fixture.empty_world (Fixture.ok "login page") (mkSession [])
           login_form_element [] "tok" (mkResponse 500 EmptyString [] [])
           (mkSession [])).
  - apply no_saved_session_empty.
  - reflexivity.
  - reflexivity.
  - reflexivity.
  - reflexivity.
  - reflexivity.
  - simpl. lia.
Defined.

Lemma login_redirect_without_location_witness :
  _login_twitter (login_env (mkResponse 302 EmptyString [] []))
    Fixture.empty_world
  = (Raise (KeyError "location"),
     sent [GET login_url; POST sessions_url (login_payload "tok")]
       Fixture.empty_world).
Proof.
  apply (login_redirect_without_location
           (login_env (mkResponse 302 EmptyString [] []))
           Fixture.empty_world (Fixture.ok "login page") (mkSession [])
           login_form_element [] "tok" (mkResponse 302 EmptyString [] [])
           (mkSession []));
    first [apply no_saved_session_empty | reflexivity].
Defined.

Lemma login_success_witness :
  fst (_login_twitter (Fixture.env true) Fixture.empty_world)
  = Return (mkSession [("auth_token", "t")]).
Proof.
  erewrite (login_success (Fixture.env true) Fixture.empty_world
              (Fixture.ok "login page") (mkSession []) login_form_element []
              "tok"
              (mkResponse 302 EmptyString
                 [("location", "https://twitter.com/")] [])
              (mkSession [("auth_token", "t")]) "https://twitter.com/");
    first [apply no_saved_session_empty | reflexivity].
Defined.

(** X7. Login is idempotent where pickling round-trips: right after a login
    that returned a session, whether from the cache or from a handshake, a
    second login returns the same session and changes nothing, so it sends no
    request and writes nothing. *)
Theorem login_twice env w session w' :
  _login_twitter env w = (Return session, w') ->
  pickle_loads env (pickle_dumps env session) = Some session ->
  _login_twitter env w' = (Return session, w').
Proof.
  intros Hrun Hround.
  assert (Hfresh : login_handshake env w = (Return session, w') ->
                   _login_twitter env w' = (Return session, w')).
  { intros Hh. pose proof (login_handshake_writes env w) as Hw.
    rewrite Hh in Hw. destruct Hw as [_ Hredis].
    unfold _login_twitter, bind, redis_get.
    now rewrite Hredis, lookup_insert_eq, Hround. }
  pose proof Hrun as Hrun'.
  unfold _login_twitter, bind, redis_get in Hrun'.
  destruct (w_redis w !! "twitter_session") as [blob|] eqn:Hblob;
    [|now apply Hfresh].
  destruct (pickle_loads env blob) as [s0|] eqn:Hs0; [|now apply Hfresh].
  injection Hrun' as <- <-. exact Hrun.
Qed.

Lemma login_twice_witness :
  _login_twitter (Fixture.env true)
    (snd (_login_twitter (Fixture.env true) Fixture.empty_world))
  = (Return (mkSession [("auth_token", "t")]),
     snd (_login_twitter (Fixture.env true) Fixture.empty_world)).
Proof.
  apply (login_twice (Fixture.env true) Fixture.empty_world).
  - vm_compute. reflexivity.
  - reflexivity.
Defined.

(** ** Failures before the page is read *)

(** X8. A login that fails makes the scrape fail in the same way: the page
    is not requested, the unknown-error message is published, the exception
    of the login is raised again, and the store, the session and the queues
    are as they were. *)
Theorem scrape_account_login_failure env username w e w1 :
  _login_twitter env w = (Raise e, w1) ->
  scrape_account env "twitter" username w
  = (Raise e, publish (unknown_error_message "twitter" username) w1)
  /\ same_store w w1.
Proof.
  intros Hlogin. split.
  - assert (Hrun : _scrape_twitter_account env username w = (Raise e, w1)).
    { unfold _scrape_twitter_account.
      now rewrite (bind_Raise _ _ _ _ _ Hlogin). }
    apply (scrape_account_raises _ _ _ _ _ Hrun).
  - pose proof (login_same_store env w) as Hsame. now rewrite Hlogin in Hsame.
Qed.

Lemma scrape_account_login_failure_witness :
  scrape_account (Fixture.env false) "twitter" "alice" Fixture.empty_world
  = (Raise (NameError "click"),
     publish (unknown_error_message "twitter" "alice")
       (sent [GET login_url; POST sessions_url (login_payload "tok")]
          Fixture.empty_world)).
Proof.
  apply (scrape_account_login_failure (Fixture.env false) "alice"
           Fixture.empty_world).
  vm_compute. reflexivity.
Defined.

(** X9. An identity element without the [data-user-id] attribute ends the
    scrape with [KeyError] before the store is reached: besides the request
    and the unknown-error message, the world is as the login left it. *)
Theorem scrape_account_missing_user_id
  env username w session w1 response s' id_el :
  _login_twitter env w = (Return session, w1) ->
  http env (w_net w1) session (GET (home_url username)) = (inr response, s') ->
  status_code response = 200 ->
  head (select env (text response) id_selector) = Some id_el ->
  assoc "data-user-id" (attrs id_el) = None ->
  scrape_account env "twitter" username w
  = (Raise (KeyError "data-user-id"),
     publish (unknown_error_message "twitter" username)
       (sent [GET (home_url username)] w1)).
Proof.
  intros Hlogin Hhttp Hok Hid_el Huid.
  assert (Hrun : _scrape_twitter_account env username w
                 = (Raise (KeyError "data-user-id"),
                    sent [GET (home_url username)] w1)).
  { unfold _scrape_twitter_account.
    run Hlogin. run (session_send_response _ _ _ _ _ _ Hhttp).
    cbn [fst]. rewrite Hok. cbn [Z.eqb Pos.eqb negb].
    unfold bind at 1. cbn [ret].
    run (index0_head _ _ (set_net (w_net w1 ++ [GET (home_url username)]) w1)
           Hid_el).
    unfold bind at 1. unfold getitem. now rewrite Huid. }
  apply (scrape_account_raises _ _ _ _ _ Hrun).
Qed.

Lemma scrape_account_missing_user_id_witness :
  scrape_account
    (mkEnv (fun _ session _ => (inr (Fixture.ok "bare"), session))
       (fun _ _ => [mkElement [] EmptyString]) Fixture.loads (fun _ => []))
    "twitter" "alice" Fixture.logged_in
  = (Raise (KeyError "data-user-id"),
     publish (unknown_error_message "twitter" "alice")
       (sent [GET (home_url "alice")] Fixture.logged_in)).
Proof.
  apply (scrape_account_missing_user_id _ "alice" Fixture.logged_in
           (mkSession [("auth_token", "t")]) Fixture.logged_in
           (Fixture.ok "bare") (mkSession [("auth_token", "t")])
           (mkElement [] EmptyString)).
  - vm_compute. reflexivity.
  - reflexivity.
  - reflexivity.
  - reflexivity.
  - reflexivity.
Defined.

(** ** The jobs *)

Lemma keeps_queues_session_send env session rq :
  keeps queues (session_send env session rq).
Proof.
  intros w. unfold session_send.
  destruct (http env _ _ _) as [[msg|r] s]; reflexivity.
Qed.

Lemma keeps_queues_db_commit : keeps queues db_commit.
Proof.
  intros w. unfold db_commit.
  destruct (flush_profiles _ _) as [[rows fl]|]; [|reflexivity].
  destruct (flush_files _ _); reflexivity.
Qed.

Lemma keeps_queues_setattr g p : keeps queues (setattr g p).
Proof.
  unfold setattr. apply keeps_bind; [|intros; apply keeps_ret].
  apply keeps_modify. intros w. now destruct (p_id (g p)).
Qed.

Lemma keeps_queues_login env : keeps queues (_login_twitter env).
Proof.
  intros w. destruct (login_same_store env w) as (_ & _ & _ & _ & _ & _ & Hs & Hi).
  unfold queues. now rewrite Hs, Hi.
Qed.

Lemma keeps_queues_upsert_profile user_id username :
  keeps queues (upsert_profile user_id username).
Proof.
  unfold upsert_profile.
  apply keeps_bind; [now apply keeps_modify|intros _].
  apply keeps_try_except.
  - apply keeps_bind; [apply keeps_queues_db_commit|].
    intros; apply keeps_ret.
  - intros []; try apply keeps_raise.
    apply keeps_bind; [now apply keeps_modify|intros _].
    apply keeps_db_query_one.
Qed.

Ltac keeps_queues :=
  repeat first
    [ apply keeps_ret | apply keeps_raise | apply keeps_index0
    | apply keeps_getitem | apply keeps_int | apply keeps_call_HTTPError
    | apply keeps_queues_session_send | apply keeps_queues_db_commit
    | apply keeps_queues_setattr | apply keeps_queues_login
    | apply keeps_queues_upsert_profile
    | apply keeps_bind; [|intros]
    | match goal with
      | |- keeps _ (if ?b then _ else _) => destruct b
      end ].

(** A scrape that fails has enqueued nothing. *)
Lemma scrape_twitter_account_failure_queues env username w e w' :
  _scrape_twitter_account env username w = (Raise e, w') ->
  queues w' = queues w.
Proof.
  intros Hrun. unfold _scrape_twitter_account in Hrun.
  assert (Hinv : queues w = queues w) by reflexivity.
  revert Hrun Hinv. generalize w at 1 2 as wc. intros wc Hrun Hinv.
  repeat
    match type of Hrun with
    | bind (scrape_queue_enqueue _) _ _ = _ => fail 1
    | bind ?c _ ?w = (Raise _, _) =>
        let a := fresh "a" in
        let wa := fresh "wa" in
        let Ha := fresh "Ha" in
        apply bind_Raise_inv in Hrun as [Hrun | (a & wa & Ha & Hrun)];
        [ apply (keeps_run queues) in Hrun; [|solve [keeps_queues]];
          now rewrite Hinv in Hrun
        | apply (keeps_run queues) in Ha; [|solve [keeps_queues]];
          rewrite Hinv in Ha; clear Hinv; rename Ha into Hinv;
          cbv beta iota zeta in Hrun ]
    end.
  discriminate Hrun.
Qed.

(** A scrape that returns has enqueued one job on each queue, both for the
    profile whose key is in the data it returns. *)
Lemma scrape_twitter_account_success_queues env username w data w' :
  _scrape_twitter_account env username w = (Return data, w') ->
  exists id_ url,
    w_scrape_queue w'
    = (w_scrape_queue w ++ [Job_scrape_twitter_avatar id_ url])%list
    /\ w_index_queue w' = (w_index_queue w ++ [Job_index_profile id_])%list
    /\ dict_get "id" data = Some id_
    /\ dict_keys data = message_keys
    /\ dict_get "name" data = Some (VStr username)
    /\ dict_get "site" data = Some (VStr "twitter").
Proof.
  intros Hrun. unfold _scrape_twitter_account in Hrun.
  assert (Hinv : queues w = queues w) by reflexivity.
  revert Hrun Hinv. generalize w at 1 2 as wc. intros wc Hrun Hinv.
  repeat
    match type of Hrun with
    | bind (scrape_queue_enqueue _) _ _ = _ => fail 1
    | bind ?c _ ?w = (Return _, _) =>
        let a := fresh "a" in
        let wa := fresh "wa" in
        let Ha := fresh "Ha" in
        apply bind_Return_inv in Hrun as (a & wa & Ha & Hrun);
        apply (keeps_run queues) in Ha; [|solve [keeps_queues]];
        rewrite Hinv in Ha; clear Hinv; rename Ha into Hinv;
        cbv beta iota zeta in Hrun
    end.
  unfold bind, scrape_queue_enqueue, index_queue_enqueue, modify, ret in Hrun.
  injection Hrun as <- <-. injection Hinv as Hs Hi.
  eexists _, _.
  cbn [w_scrape_queue w_index_queue set_scrape_queue set_index_queue].
  rewrite Hs, Hi. repeat split.
Qed.

(** X10. Whenever [scrape_account] raises for Twitter, whatever the cause, no
    job has been enqueued, and the one message published is the
    unknown-error message. *)
Theorem scrape_account_failure_enqueues_nothing env username w e w' :
  scrape_account env "twitter" username w = (Raise e, w') ->
  w_scrape_queue w' = w_scrape_queue w
  /\ w_index_queue w' = w_index_queue w
  /\ w_published w'
     = (w_published w
          ++ [("profile", unknown_error_message "twitter" username)])%list.
Proof.
  intros Hacc.
  destruct (_scrape_twitter_account env username w) as [[data|e2] w2] eqn:Hrun.
  { rewrite (scrape_account_returns _ _ _ _ _ Hrun) in Hacc. discriminate. }
  destruct (scrape_account_raises _ _ _ _ _ Hrun) as (Hacc' & _ & Hpub).
  rewrite Hacc' in Hacc. injection Hacc as _ <-.
  pose proof (scrape_twitter_account_failure_queues _ _ _ _ _ Hrun) as Hq.
  injection Hq as Hs Hi.
  cbn [publish w_scrape_queue w_index_queue w_published set_published].
  now rewrite Hs, Hi, Hpub.
Qed.

Lemma scrape_account_failure_enqueues_nothing_witness :
  w_scrape_queue
    (snd (scrape_account (Fixture.env true) "twitter" "nobio"
            Fixture.logged_in))
  = [].
Proof.
  apply (scrape_account_failure_enqueues_nothing (Fixture.env true) "nobio"
           Fixture.logged_in IndexError).
  vm_compute. reflexivity.
Defined.

(** X11. Whenever [scrape_account] returns for Twitter, for a new account or
    a known one, it has appended exactly one avatar job and one index job,
    and published exactly one message, which has the seven keys of a success
    and carries the handle it was called with; the two jobs and the message
    carry the same profile id. *)
Theorem scrape_account_success_enqueues_both env username w w' :
  scrape_account env "twitter" username w = (Return tt, w') ->
  exists id_ url data,
    w_scrape_queue w'
    = (w_scrape_queue w ++ [Job_scrape_twitter_avatar id_ url])%list
    /\ w_index_queue w' = (w_index_queue w ++ [Job_index_profile id_])%list
    /\ w_published w' = (w_published w ++ [("profile", data)])%list
    /\ dict_get "id" data = Some id_
    /\ dict_keys data = message_keys
    /\ dict_get "name" data = Some (VStr username).
Proof.
  intros Hacc.
  destruct (_scrape_twitter_account env username w) as [[data|e2] w2] eqn:Hrun.
  - rewrite (scrape_account_returns _ _ _ _ _ Hrun) in Hacc.
    injection Hacc as <-.
    pose proof (keeps_published_scrape_twitter_account env username w) as Hpub.
    rewrite Hrun in Hpub. cbn [snd] in Hpub.
    destruct (scrape_twitter_account_success_queues _ _ _ _ _ Hrun)
      as (id_ & url & Hs & Hi & Hid & Hkeys & Hname & _).
    exists id_, url, data.
    cbn [w_scrape_queue w_index_queue w_published set_published].
    now rewrite Hpub.
  - destruct (scrape_account_raises _ _ _ _ _ Hrun) as (Hacc' & _).
    rewrite Hacc' in Hacc. discriminate.
Qed.

Lemma scrape_account_success_enqueues_both_witness :
  exists id_ url data,
    w_scrape_queue
      (snd (scrape_account (Fixture.env true) "twitter" "alice2"
              Fixture.with_alice))
    = [Job_scrape_twitter_avatar id_ url]
    /\ w_index_queue
         (snd (scrape_account (Fixture.env true) "twitter" "alice2"
                 Fixture.with_alice))
       = [Job_index_profile id_]
    /\ dict_get "id" data = Some id_.
Proof.
  destruct (scrape_account_success_enqueues_both (Fixture.env true) "alice2"
              Fixture.with_alice
              (snd (scrape_account (Fixture.env true) "twitter" "alice2"
                      Fixture.with_alice)))
    as (id_ & url & data & Hs & Hi & _ & Hid & _).
  - vm_compute. reflexivity.
  - exists id_, url, data. repeat split; assumption.
Defined.

(** ** Avatars, on the path that stores *)

Lemma db_query_first_id id_ w profile :
  fst (db_query_first id_ w) = Return (Some profile) ->
  p_id profile = Some id_ /\ In profile (w_profiles w).
Proof.
  unfold db_query_first. cbn [fst]. intros [= Hfind].
  apply find_some in Hfind as [Hin Hkey]. split; [|exact Hin].
  destruct (p_id profile) as [i|]; [|discriminate].
  apply Z.eqb_eq in Hkey. now subst.
Qed.

(** The avatar function, run up to its result on the path that stores. *)
Ltac avatar_run Hhttp Hok Hfound Hp Hf Hd Hid :=
  unfold scrape_twitter_avatar;
  run (session_send_response _ _ _ _ _ _ Hhttp);
  cbn [fst]; rewrite Hok; cbn [Z.eqb Pos.eqb negb];
  unfold bind at 1; cbn [ret];
  unfold bind at 1; unfold db_query_first in *; cbn [fst] in Hfound;
  injection Hfound as Hfound; cbn [w_profiles set_net]; rewrite Hfound;
  cbv beta iota delta
    [bind avatars_append modify ret db_commit redis_publish];
  cbn [w_pending w_pending_files w_profiles w_files w_dirty set_net
       set_pending_files];
  rewrite Hp, Hf, Hd, Hid; cbn [app flush_profiles flush_files];
  rewrite apply_dirty_empty;
  cbn [fl_files last default f_id file_with_id file_with_owner new_File
       f_name f_mime f_content f_owner str_id].

(** X12. A download that answers 200, for a profile that exists, on a clean
    session: the file is stored under a new key with the last path segment of
    the URL as its name, the Content-Type of the answer (or
    application/octet-stream without one) as its MIME type, the body as its
    content and the profile as its owner; it comes last among the files; one
    message is published on [avatar], with the profile id and the path
    /api/file/ followed by the new key.  The profiles are not touched. *)
Theorem avatar_attached env id_ url w response s' profile :
  http env (w_net w) (mkSession []) (GET url) = (inr response, s') ->
  status_code response = 200 ->
  fst (db_query_first id_ w) = Return (Some profile) ->
  clean_session w ->
  let file_id := fresh_file_id (w_files w) in
  scrape_twitter_avatar env id_ url w
  = (Return tt,
     set_published
       (w_published w ++ [("avatar", avatar_message id_ file_id)])
       (set_files
          (w_files w
             ++ [mkFile (Some file_id) (last_segment url) (mime_of response)
                   (raw response) (Some id_)])
          (sent [GET url] w))).
Proof.
  intros Hhttp Hok Hfound (Hp & Hf & Hd) file_id.
  destruct (db_query_first_id _ _ _ Hfound) as [Hid _].
  avatar_run Hhttp Hok Hfound Hp Hf Hd Hid.
  unfold avatar_message, mime_of, sent. f_equal.
  destruct w; cbn in *. now subst.
Qed.

Lemma avatar_attached_witness :
  w_files
    (snd (scrape_twitter_avatar (Fixture.env true) 1
            "https://pbs.twimg.com/img/a.png" Fixture.with_alice))
  = [mkFile (Some 1) "a.png" "image/png" [Byte.x78] (Some 1)].
Proof.
  rewrite (avatar_attached (Fixture.env true) 1
             "https://pbs.twimg.com/img/a.png" Fixture.with_alice
             (mkResponse 200 EmptyString [("Content-Type", "image/png")]
                [Byte.x78])
             (mkSession []) Fixture.alice).
  - vm_compute. reflexivity.
  - reflexivity.
  - reflexivity.
  - reflexivity.
  - repeat split; reflexivity.
Defined.

Lemma fresh_file_id_new rows f :
  In f rows -> f_id f <> Some (fresh_file_id rows).
Proof.
  intros Hin Heq. unfold fresh_file_id in Heq.
  assert (In (Some (1 + max_id (map f_id rows))) (map f_id rows)) as Hmem.
  { rewrite <- Heq. now apply in_map. }
  apply max_id_ge in Hmem. lia.
Qed.

(** X13. Attaching avatars keeps the file table in order: whenever
    [scrape_twitter_avatar] returns, on a clean session, exactly one file has
    been added, after all the others, owned by the profile and under a key
    that no other file has, so distinct keys stay distinct; the profiles are
    unchanged and the session is clean again, so the same holds of the next
    avatar. *)
Theorem avatar_keeps_file_keys_distinct env id_ url w w' :
  scrape_twitter_avatar env id_ url w = (Return tt, w') ->
  clean_session w ->
  NoDup (map f_id (w_files w)) ->
  NoDup (map f_id (w_files w'))
  /\ (exists f,
        w_files w' = (w_files w ++ [f])%list
        /\ f_owner f = Some id_
        /\ f_name f = last_segment url)
  /\ w_profiles w' = w_profiles w
  /\ clean_session w'.
Proof.
  intros Hrun Hclean Hnodup. pose proof Hclean as (Hp & Hf & Hd).
  destruct (http env (w_net w) (mkSession []) (GET url))
    as [[msg|response] s'] eqn:Hhttp.
  { unfold scrape_twitter_avatar in Hrun.
    rewrite (bind_Raise _ _ _ _ _ (session_send_failure _ _ _ _ _ _ Hhttp))
      in Hrun. discriminate. }
  destruct (Z.eq_dec (status_code response) 200) as [Hok|Hbad]; cycle 1.
  { unfold scrape_twitter_avatar in Hrun.
    rewrite (bind_Return _ _ _ _ _ (session_send_response _ _ _ _ _ _ Hhttp))
      in Hrun.
    cbn [fst] in Hrun. rewrite (Zeqb_200 _ Hbad) in Hrun. discriminate. }
  destruct (fst (db_query_first id_ w)) as [[profile|]|e] eqn:Hfound.
  - destruct (db_query_first_id _ _ _ Hfound) as [Hid _].
    revert Hrun. avatar_run Hhttp Hok Hfound Hp Hf Hd Hid.
    intros [= <-].
    cbn [w_files w_profiles set_published set_dirty set_pending_files
         set_pending set_files set_profiles set_net].
    split; [|split; [|split]].
    + rewrite map_app. apply NoDup_app. split; [exact Hnodup|]. split.
      * intros x Hx Hx'. cbn in Hx'. apply list_elem_of_In in Hx, Hx'.
        destruct Hx' as [<-|[]]. apply in_map_iff in Hx as (f & Hf' & Hin).
        now apply (fresh_file_id_new (w_files w) f).
      * cbn. apply NoDup_singleton.
    + eexists. split; [reflexivity|]. now split.
    + reflexivity.
    + repeat split.
  - unfold scrape_twitter_avatar in Hrun.
    rewrite (bind_Return _ _ _ _ _ (session_send_response _ _ _ _ _ _ Hhttp))
      in Hrun.
    cbn [fst] in Hrun. rewrite Hok in Hrun.
    cbn [Z.eqb Pos.eqb negb] in Hrun.
    unfold bind at 1 in Hrun. cbn [ret] in Hrun.
    unfold bind at 1 in Hrun. unfold db_query_first in *.
    cbn [fst w_profiles set_net] in *. injection Hfound as Hfound.
    rewrite Hfound in Hrun. discriminate.
  - unfold db_query_first in Hfound. discriminate.
Qed.

Lemma avatar_keeps_file_keys_distinct_witness :
  NoDup
    (map f_id
       (w_files
          (snd (scrape_twitter_avatar (Fixture.env true) 1
                  "https://pbs.twimg.com/img/a.png" Fixture.with_alice)))).
Proof.
  apply (avatar_keeps_file_keys_distinct (Fixture.env true) 1
           "https://pbs.twimg.com/img/a.png" Fixture.with_alice).
  - vm_compute. reflexivity.
  - repeat split; reflexivity.
  - simpl. apply NoDup_nil_2.
Defined.

(** ** The name of an avatar *)

Lemma last_segment_aux_spec l acc :
  ~ In slash acc ->
  ~ In slash (last_segment_aux acc l)
  /\ exists pre,
       (rev acc ++ l = pre ++ last_segment_aux acc l)%list
       /\ (pre = [] \/ exists pre', pre = (pre' ++ [slash])%list).
Proof.
  revert acc. induction l as [|c l IH]; intros acc Hacc; cbn [last_segment_aux].
  - split.
    + intros Hin. apply Hacc. now apply in_rev.
    + exists []. split; [now rewrite app_nil_r | now left].
  - destruct (Ascii.eqb c "/") eqn:Hc.
    + apply Ascii.eqb_eq in Hc. subst c.
      destruct (IH [] (fun H => H)) as (Hno & pre & Heq & Hpre).
      split; [exact Hno|].
      exists (rev acc ++ slash :: pre)%list. split.
      * cbn [rev app] in Heq. rewrite Heq at 1.
        now rewrite <- app_assoc.
      * right. destruct Hpre as [->|(pre' & ->)].
        -- now exists (rev acc).
        -- exists (rev acc ++ slash :: pre')%list.
           now rewrite <- app_assoc.
    + assert (Hacc' : ~ In slash (c :: acc)).
      { intros [Heq|Hin]; [|now apply Hacc].
        rewrite Heq in Hc. unfold slash in Hc.
        now rewrite Ascii.eqb_refl in Hc. }
      destruct (IH (c :: acc) Hacc') as (Hno & pre & Heq & Hpre).
      split; [exact Hno|]. exists pre. split; [|exact Hpre].
      rewrite <- Heq. cbn [rev]. now rewrite <- app_assoc.
Qed.

(** X14. The name given to an avatar, [url.split('/')[-1]], has no slash in
    it and is the end of the URL: what comes before it is empty (the URL has
    no slash and is the name) or ends with a slash. *)
Theorem last_segment_is_the_tail url :
  ~ In slash (chars (last_segment url))
  /\ exists pre,
       chars url = (pre ++ chars (last_segment url))%list
       /\ (pre = [] \/ exists pre', pre = (pre' ++ [slash])%list).
Proof.
  unfold last_segment, of_chars, chars.
  rewrite list_ascii_of_string_of_list_ascii.
  destruct (last_segment_aux_spec (list_ascii_of_string url) [] (fun H => H))
    as (Hno & pre & Heq & Hpre).
  split; [exact Hno|]. now exists pre.
Qed.

Example last_segment_examples :
  last_segment "https://pbs.twimg.com/img/a.png" = "a.png"
  /\ last_segment "a.png" = "a.png"
  /\ last_segment "https://pbs.twimg.com/img/" = EmptyString.
Proof. repeat split. Qed.

(** ** Reading a count *)














(** ** Scraping again *)

Lemma with_scraped_idempotent s p :
  with_scraped s (with_scraped s p) = with_scraped s p.
Proof. reflexivity. Qed.



(** ** The request for the page *)

(** X18. When the request for the page fails in transport, the scrape ends
    with the exception of the HTTP client: the unknown-error message is
    published, the exception is raised again, and besides the request the
    world is as the login left it. *)
Theorem scrape_account_transport_failure env username w session w1 msg s' :
  _login_twitter env w = (Return session, w1) ->
  http env (w_net w1) session (GET (home_url username)) = (inl msg, s') ->
  scrape_account env "twitter" username w
  = (Raise (RequestException msg),
     publish (unknown_error_message "twitter" username)
       (sent [GET (home_url username)] w1)).
Proof.
  intros Hlogin Hhttp.
  assert (Hrun : _scrape_twitter_account env username w
                 = (Raise (RequestException msg),
                    sent [GET (home_url username)] w1)).
  { unfold _scrape_twitter_account. run Hlogin.
    now rewrite (bind_Raise _ _ _ _ _
                   (session_send_failure _ _ _ _ _ _ Hhttp)). }
  apply (scrape_account_raises _ _ _ _ _ Hrun).
Qed.

Lemma scrape_account_transport_failure_witness :
  scrape_account
    (mkEnv (fun _ session _ => (inl "timed out", session))
       (fun _ _ => []) Fixture.loads (fun _ => []))
    "twitter" "alice" Fixture.logged_in
  = (Raise (RequestException "timed out"),
     publish (unknown_error_message "twitter" "alice")
       (sent [GET (home_url "alice")] Fixture.logged_in)).
Proof.
  apply (scrape_account_transport_failure _ "alice" Fixture.logged_in
           (mkSession [("auth_token", "t")]) Fixture.logged_in "timed out"
           (mkSession [("auth_token", "t")])).
  - vm_compute. reflexivity.
  - reflexivity.
Defined.

(** Once the page has been requested, the scrape sends nothing more. *)
Lemma keeps_net_db_commit : keeps w_net db_commit.
Proof.
  intros w. unfold db_commit.
  destruct (flush_profiles _ _) as [[rows fl]|]; [|reflexivity].
  destruct (flush_files _ _); reflexivity.
Qed.

Lemma keeps_net_setattr g p : keeps w_net (setattr g p).
Proof.
  unfold setattr. apply keeps_bind; [|intros; apply keeps_ret].
  apply keeps_modify. intros w. now destruct (p_id (g p)).
Qed.

Lemma keeps_net_upsert_profile user_id username :
  keeps w_net (upsert_profile user_id username).
Proof.
  unfold upsert_profile.
  apply keeps_bind; [now apply keeps_modify|intros _].
  apply keeps_try_except.
  - apply keeps_bind; [apply keeps_net_db_commit|].
    intros; apply keeps_ret.
  - intros []; try apply keeps_raise.
    apply keeps_bind; [now apply keeps_modify|intros _].
    apply keeps_db_query_one.
Qed.

Ltac keeps_net :=
  repeat first
    [ apply keeps_ret | apply keeps_raise | apply keeps_index0
    | apply keeps_getitem | apply keeps_int | apply keeps_call_HTTPError
    | apply keeps_net_db_commit | apply keeps_net_setattr
    | apply keeps_net_upsert_profile
    | apply keeps_modify; intros; reflexivity
    | apply keeps_bind; [|intros]
    | match goal with
      | |- keeps _ (if ?b then _ else _) => destruct b
      end ].

(** X19. With a saved session that unpickles, a scrape sends exactly one
    request, the one for the page of the account, whatever happens next: no
    login request is made on any path. *)
Theorem scrape_account_with_saved_session_one_request
  env username w blob session :
  w_redis w !! "twitter_session" = Some blob ->
  pickle_loads env blob = Some session ->
  w_net (snd (scrape_account env "twitter" username w))
  = (w_net w ++ [GET (home_url username)])%list.
Proof.
  intros Hblob Hloads.
  assert (Hlogin : _login_twitter env w = (Return session, w)).
  { unfold _login_twitter, bind, redis_get. now rewrite Hblob, Hloads. }
  assert (Hscraper :
            w_net (snd (_scrape_twitter_account env username w))
            = (w_net w ++ [GET (home_url username)])%list).
  { unfold _scrape_twitter_account. run Hlogin.
    unfold bind at 1. unfold session_send at 1.
    destruct (http env (w_net w) session _) as [[msg|response] s'];
      [reflexivity|].
    cbv beta iota.
    match goal with
    | |- w_net (snd (?c ?w0)) = _ =>
        assert (Hkeep : keeps w_net c)
          by (unfold scrape_queue_enqueue, index_queue_enqueue; keeps_net);
        now rewrite (Hkeep w0)
    end. }
  unfold scrape_account. rewrite account_scrapers_twitter.
  unfold try_except, bind.
  destruct (_scrape_twitter_account env username w) as [[data|e] w2];
    cbn [snd] in Hscraper.
  - exact Hscraper.
  - destruct e; exact Hscraper.
Qed.

Lemma scrape_account_with_saved_session_one_request_witness :
  w_net (snd (scrape_account (Fixture.env true) "twitter" "nobio"
                Fixture.logged_in))
  = [GET (home_url "nobio")].
Proof.
  apply (scrape_account_with_saved_session_one_request (Fixture.env true)
           "nobio" Fixture.logged_in [Byte.x73]
           (mkSession [("auth_token", "t")])).
  - vm_compute. reflexivity.
  - reflexivity.
Defined.

(** ** Reading back what was written *)


(** X20. The upsert and the lookup agree: on a clean session and a table
    with at most one row per identity, the profile that [upsert_profile]
    returns, whether it was inserted or found, is the one row that the query
    by (site, original id) finds afterwards. *)
Theorem upsert_then_query user_id username w p w' :
  clean_session w ->
  unique_identities (w_profiles w) ->
  upsert_profile user_id username w = (Return p, w') ->
  db_query_one "twitter" user_id w' = (Return p, w')
  /\ p_site p = "twitter" /\ p_original_id p = user_id.
Proof.
  intros Hclean Huniq Hrun.
  destruct (existsb (same_identity "twitter" user_id) (w_profiles w)) eqn:Hex.
  - destruct (filter_one_of_unique _ _ Huniq Hex) as (p0 & Hrow).
    rewrite (upsert_profile_existing _ _ _ _ Hclean Hrow) in Hrun.
    injection Hrun as <- <-. unfold db_query_one. rewrite Hrow.
    split; [reflexivity|].
    apply same_identity_true.
    apply (proj1 (filter_In _ p0 (w_profiles w))). rewrite Hrow. now left.
  - rewrite (upsert_profile_new _ _ _ Hclean Hex) in Hrun.
    injection Hrun as <- <-. unfold db_query_one.
    cbn [w_profiles set_profiles]. rewrite List.filter_app.
    apply existsb_filter in Hex. rewrite Hex. cbn [List.filter app].
    unfold same_identity. cbn [with_id new_Profile p_site p_original_id].
    rewrite !String.eqb_refl. cbn [andb]. now repeat split.
Qed.

Lemma upsert_then_query_witness :
  db_query_one "twitter" "4242"
    (snd (upsert_profile "4242" "alice2" Fixture.with_alice))
  = (Return Fixture.alice,
     snd (upsert_profile "4242" "alice2" Fixture.with_alice)).
Proof.
  apply (upsert_then_query "4242" "alice2" Fixture.with_alice).
  - repeat split; reflexivity.
  - intros site oid. simpl.
    destruct (same_identity site oid Fixture.alice); simpl; lia.
  - vm_compute. reflexivity.
Defined.


